(** * ChatInterface: the chat surface of the LLM Council front end

    A shallow embedding of the React component [ChatInterface] and the
    verification of its input, attachment and stage-rendering behaviour.

    The repository holds two versions of the component:
    - [src/unnamed/part_000]: takes an [isLoading] prop and renders the
      three council stages (module [Part000]);
    - [src/frontend/src/components/ChatInterface.jsx]: takes no [isLoading]
      prop and renders stages 1 and 3 only (module [ChatInterfaceJsx]).
    The attachment handlers [handleFileChange] and [handleRemoveFile] have
    the same text in both files and are embedded once (module [Attachment]).

    Conventions of the embedding:
    - a JavaScript string is the list of its UTF-16 code units;
    - the component's [useState] cells, the file picker behind
      [fileInputRef], the event's cancelled flag and the log of calls to the
      external collaborators form one record, [World]; a handler is a
      computation in the state monad over [World];
    - an [async] handler is cut at its [await]: the part before it
      ([_begin]) and the part that runs once the promise has settled
      ([_settle]), which receives the outcome; other handlers may run in
      between;
    - [Date.now()] is read from the environment and passed in;
    - a session is a list of events, each run by the handler attached to
      it ([step], [replay]). *)

From Stdlib Require Import List String Ascii NArith ZArith Bool Lia.
From ExtLib Require Import Structures.Monad Structures.MonadState.
From ExtLib Require Import Data.Monads.StateMonad.
Import ListNotations.
Import MonadNotation.
Local Open Scope monad_scope.
Local Open Scope list_scope.

(* ===================================================================== *)
(** ** JavaScript strings *)
(* ===================================================================== *)

Module JS.

(** A string value: its UTF-16 code units, each below 65536. *)
Definition jsstring := list N.

(** An ASCII literal of the source, as code units. *)
Definition lit (s : string) : jsstring :=
  map N_of_ascii (list_ascii_of_string s).

(** ECMAScript WhiteSpace and LineTerminator code points, the characters
    [String.prototype.trim] strips: TAB, LF, VT, FF, CR, SP, NBSP, U+1680,
    U+2000..U+200A, LS, PS, U+202F, U+205F, U+3000 and ZWNBSP. *)
Definition isWhiteSpace (c : N) : bool :=
  ((9 <=? c) && (c <=? 13) || (c =? 32) || (c =? 160) || (c =? 5760)
   || (8192 <=? c) && (c <=? 8202) || (c =? 8232) || (c =? 8233)
   || (c =? 8239) || (c =? 8287) || (c =? 12288) || (c =? 65279))%N.

(** [String.prototype.trimStart]. *)
Fixpoint trimStart (s : jsstring) : jsstring :=
  match s with
  | [] => []
  | c :: rest => if isWhiteSpace c then trimStart rest else s
  end.

(** [String.prototype.trimEnd]. *)
Definition trimEnd (s : jsstring) : jsstring := rev (trimStart (rev s)).

(** [String.prototype.trim]: white space removed from both ends. *)
Definition trim (s : jsstring) : jsstring := trimEnd (trimStart s).

(** ToBoolean on a string: only the empty string is falsy. *)
Definition truthy (s : jsstring) : bool :=
  match s with [] => false | _ :: _ => true end.

(** Strict equality [===] of two strings: the same code units. *)
Fixpoint strictEq (a b : jsstring) : bool :=
  match a, b with
  | [], [] => true
  | x :: a', y :: b' => (x =? y)%N && strictEq a' b'
  | _, _ => false
  end.

End JS.
Import JS.

(* ===================================================================== *)
(** ** Component state and collaborators *)
(* ===================================================================== *)

(** The user-chosen file handed to the upload collaborator. *)
Record File := mkFile {
  fileName : jsstring;
  fileBytes : list N
}.

(** [{ name: result.filename, id: Date.now() }] *)
Record UploadedFile := mkUploadedFile {
  name : jsstring;
  id : Z
}.

(** What [onUploadFile] resolves to: [{ filename }]. *)
Record UploadResult := mkUploadResult {
  filename : jsstring
}.

(** What a collaborator rejects with: an error carrying [message]. *)
Record JsError := mkJsError {
  message : jsstring
}.

(** How an awaited promise settles. *)
Inductive Settled (A : Type) : Type :=
| Fulfilled (value : A)
| Rejected (error : JsError).
Arguments Fulfilled {A} value.
Arguments Rejected {A} error.

(** A call that leaves the component: the three collaborator props and
    [console.error]. *)
Inductive Call :=
| OnSendMessage (text : jsstring)
| OnUploadFile (file : File)
| OnDeleteFile (fname : jsstring)
| ConsoleError (label : jsstring) (error : JsError).

(** Everything a handler reads or writes.
    - [input], [uploadStatus], [uploadedFiles]: the three [useState] cells,
      initially [''], [''] and [[]];
    - [fileInput]: [fileInputRef.current], [None] while the picker is not
      mounted, otherwise the picker's [value];
    - [defaultPrevented]: the cancelled flag of the event being handled,
      which [e.preventDefault()] sets;
    - [calls]: the calls made so far, oldest first. *)
Record World := mkWorld {
  input : jsstring;
  uploadStatus : jsstring;
  uploadedFiles : list UploadedFile;
  fileInput : option jsstring;
  defaultPrevented : bool;
  calls : list Call
}.

Definition initialWorld : World :=
  mkWorld [] [] [] (Some []) false [].

(** Field updates. *)
Definition withInput (v : jsstring) (w : World) : World :=
  mkWorld v (uploadStatus w) (uploadedFiles w)
          (fileInput w) (defaultPrevented w) (calls w).

Definition withUploadStatus (v : jsstring) (w : World) : World :=
  mkWorld (input w) v (uploadedFiles w)
          (fileInput w) (defaultPrevented w) (calls w).

Definition withUploadedFiles (v : list UploadedFile) (w : World) : World :=
  mkWorld (input w) (uploadStatus w) v
          (fileInput w) (defaultPrevented w) (calls w).

Definition withFileInput (v : option jsstring) (w : World) : World :=
  mkWorld (input w) (uploadStatus w) (uploadedFiles w)
          v (defaultPrevented w) (calls w).

Definition withDefaultPrevented (v : bool) (w : World) : World :=
  mkWorld (input w) (uploadStatus w) (uploadedFiles w)
          (fileInput w) v (calls w).

Definition withCalls (v : list Call) (w : World) : World :=
  mkWorld (input w) (uploadStatus w) (uploadedFiles w)
          (fileInput w) (defaultPrevented w) v.

(** A handler runs in the state monad over [World]. *)
Definition Handler := state World.

(** The world a handler leaves behind. *)
Definition run {A} (h : Handler A) (w : World) : World := execState h w.

(** A state update whose result is not used. *)
Definition update (f : World -> World) : Handler unit :=
  modify f ;; ret tt.

(** [setInput(v)] *)
Definition setInput (v : jsstring) : Handler unit :=
  update (withInput v).

(** [setUploadStatus(v)] *)
Definition setUploadStatus (v : jsstring) : Handler unit :=
  update (withUploadStatus v).

(** [setUploadedFiles(updater)], the functional form: the updater receives
    the list held when the update is applied. *)
Definition setUploadedFiles
    (updater : list UploadedFile -> list UploadedFile) : Handler unit :=
  update (fun w => withUploadedFiles (updater (uploadedFiles w)) w).

(** [e.preventDefault()] *)
Definition preventDefault : Handler unit :=
  update (withDefaultPrevented true).

(** A call that leaves the component, appended to the log. *)
Definition call (c : Call) : Handler unit :=
  update (fun w => withCalls (calls w ++ [c]) w).

(** [if (fileInputRef.current) fileInputRef.current.value = '';] *)
Definition clearFileInput : Handler unit :=
  update (fun w => withFileInput
                     (match fileInput w with
                      | Some _ => Some []
                      | None => None
                      end) w).

(** The current draft, as the handler's closure sees it. *)
Definition getInput : Handler jsstring := gets input.

(* ===================================================================== *)
(** ** Events *)
(* ===================================================================== *)

(** A keyboard event, as far as [handleKeyDown] reads it. *)
Record KeyboardEvent := mkKeyboardEvent {
  key : jsstring;
  shiftKey : bool
}.

(** A change event of the file picker: [e.target.files], which may be
    absent, and otherwise lists the selected files. *)
Record ChangeEvent := mkChangeEvent {
  files : option (list File)
}.

(** [e.target.files?.[0]]: [None] stands for [undefined]. *)
Definition firstFile (e : ChangeEvent) : option File :=
  match files e with
  | Some (file :: _) => Some file
  | _ => None
  end.

(* ===================================================================== *)
(** ** Messages and rendered output *)
(* ===================================================================== *)

(** The payloads that the stage components [Stage1], [Stage2] and [Stage3]
    consume. Those components are imported from sibling files; this
    component hands the payloads on without inspecting them, so their types
    are left open. *)
Class Payloads := {
  Stage1Data : Type;
  Stage2Data : Type;
  Stage3Extra : Type;
  LabelToModel : Type;
  AggregateRankings : Type
}.

(** [msg.loading]: one flag per stage. *)
Record Loading := mkLoading {
  loading_stage1 : bool;
  loading_stage2 : bool;
  loading_stage3 : bool
}.

(** [msg.stage3]: the object whose [response] the component reads; [extra]
    stands for its other fields. *)
Record Stage3Data `{Payloads} := mkStage3Data {
  response : jsstring;
  extra : Stage3Extra
}.

(** [msg.metadata]: either field may be missing. *)
Record Metadata `{Payloads} := mkMetadata {
  label_to_model : option LabelToModel;
  aggregate_rankings : option AggregateRankings
}.

(** One entry of [conversation.messages]. An optional field is [None] when
    the property is [null] or [undefined]. *)
Record Message `{Payloads} := mkMessage {
  role : jsstring;
  content : option jsstring;
  stage1 : option Stage1Data;
  stage2 : option Stage2Data;
  stage3 : option Stage3Data;
  loading : option Loading;
  metadata : option Metadata
}.

(** The elements a message renders to. *)
Inductive Node `{Payloads} :=
| MessageLabel (text : jsstring)
| Markdown (children : option jsstring)
| StageLoading (text : jsstring)
| Stage1 (responses : Stage1Data)
| Stage2 (rankings : Stage2Data)
         (labelToModel : option LabelToModel)
         (aggregateRankings : option AggregateRankings)
| Stage3 (finalResponse : Stage3Data).

(** The [message-group] of one message. *)
Inductive MessageGroup `{Payloads} :=
| UserMessage (children : list Node)
| AssistantMessage (children : list Node).

Arguments mkStage3Data {_} response extra.
Arguments mkMetadata {_} label_to_model aggregate_rankings.
Arguments mkMessage {_} role content stage1 stage2 stage3 loading metadata.
Arguments MessageLabel {_} text.
Arguments Markdown {_} children.
Arguments StageLoading {_} text.
Arguments Stage1 {_} responses.
Arguments Stage2 {_} rankings labelToModel aggregateRankings.
Arguments Stage3 {_} finalResponse.
Arguments UserMessage {_} children.
Arguments AssistantMessage {_} children.

Section MessageAccess.
Context `{Payloads}.

(** [msg.loading?.stageN], as a condition. *)
Definition loadingFlag (flag : Loading -> bool) (msg : Message) : bool :=
  match loading msg with
  | Some l => flag l
  | None => false
  end.

(** [msg.stage3?.response], as a condition. *)
Definition stage3Response (msg : Message) : bool :=
  match stage3 msg with
  | Some s => truthy (response s)
  | None => false
  end.

(** [msg.metadata?.label_to_model] *)
Definition metadataLabelToModel (msg : Message) : option LabelToModel :=
  match metadata msg with
  | Some m => label_to_model m
  | None => None
  end.

(** [msg.metadata?.aggregate_rankings] *)
Definition metadataAggregateRankings (msg : Message)
  : option AggregateRankings :=
  match metadata msg with
  | Some m => aggregate_rankings m
  | None => None
  end.

(** [{condition && element}] inside JSX. *)
Definition when (condition : bool) (element : Node) : list Node :=
  if condition then [element] else [].

(** [{value && element(value)}] for an optional object. *)
Definition whenSome {A} (value : option A) (element : A -> Node)
  : list Node :=
  match value with
  | Some v => [element v]
  | None => []
  end.

End MessageAccess.

(* ===================================================================== *)
(** ** Attachment handlers (same text in both files) *)
(* ===================================================================== *)

Module Attachment.

(** [handleFileChange] up to [await onUploadFile(file)]
    (part_000 lines 46-51, ChatInterface.jsx lines 43-48). The result is the
    file whose upload is now awaited, or [None] after the early [return]. *)
Definition handleFileChange_begin (e : ChangeEvent) : Handler (option File) :=
  match firstFile e with
  | None => ret None
  | Some file =>
      setUploadStatus (lit "Uploading...") ;;
      call (OnUploadFile file) ;;
      ret (Some file)
  end.

(** [handleFileChange] from the settled promise on
    (part_000 lines 51-58, ChatInterface.jsx lines 48-54); [now] is what
    [Date.now()] returns when the new entry is built. *)
Definition handleFileChange_settle
    (settled : Settled UploadResult) (now : Z) : Handler unit :=
  match settled with
  | Fulfilled result =>
      setUploadStatus [] ;;
      setUploadedFiles
        (fun prev => prev ++ [mkUploadedFile (filename result) now])
  | Rejected error =>
      setUploadStatus (lit "Error: " ++ message error)
  end ;;
  clearFileInput.

(** The whole handler, when nothing else runs while the upload is awaited. *)
Definition handleFileChange
    (e : ChangeEvent) (settled : Settled UploadResult) (now : Z)
  : Handler unit :=
  awaited <- handleFileChange_begin e ;;
  match awaited with
  | None => ret tt
  | Some _ => handleFileChange_settle settled now
  end.

(** [handleRemoveFile] up to [await onDeleteFile(filename)]. *)
Definition handleRemoveFile_begin (fname : jsstring) : Handler unit :=
  call (OnDeleteFile fname).

(** [handleRemoveFile] from the settled promise on
    (part_000 lines 63-68, ChatInterface.jsx lines 59-64). *)
Definition handleRemoveFile_settle
    (fname : jsstring) (settled : Settled unit) : Handler unit :=
  match settled with
  | Fulfilled _ =>
      setUploadedFiles
        (fun prev => filter (fun f => negb (strictEq (name f) fname)) prev)
  | Rejected error =>
      call (ConsoleError (lit "Failed to remove file:") error) ;;
      setUploadStatus (lit "Error removing file: " ++ message error)
  end.

(** The whole handler, when nothing else runs while the deletion is
    awaited. *)
Definition handleRemoveFile
    (fname : jsstring) (settled : Settled unit) : Handler unit :=
  handleRemoveFile_begin fname ;;
  handleRemoveFile_settle fname settled.

(** One [file-chip]: its React [key], the name it shows, and the name its
    remove button hands to [handleRemoveFile]. *)
Record FileChip := mkFileChip {
  chipKey : Z;
  chipName : jsstring;
  chipRemoves : jsstring
}.

(** The [file-list] (part_000 lines 156-173, ChatInterface.jsx lines
    124-140): absent while there are no attachments, otherwise one chip
    per attachment, keyed by [file.id]. *)
Definition renderFileList (uploadedFiles : list UploadedFile)
  : option (list FileChip) :=
  if (0 <? List.length uploadedFiles)%nat then
    Some (map (fun file => mkFileChip (id file) (name file) (name file))
              uploadedFiles)
  else
    None.

End Attachment.

(* ===================================================================== *)
(** ** The component's props and its rendered tree *)
(* ===================================================================== *)

(** The [conversation] prop, when one is selected. *)
Record Conversation `{Payloads} := mkConversation {
  messages : list Message
}.
Arguments mkConversation {_} messages.

(** What the [messages-container] holds above the loading indicator: the
    [Start a conversation] placeholder or one group per message. *)
Inductive MessagesArea `{Payloads} :=
| StartConversation
| MessageGroups (groups : list MessageGroup).
Arguments StartConversation {_}.
Arguments MessageGroups {_} groups.

(** The parts of the chat screen that depend on props and state.
    - [messagesArea], [loadingIndicator]: the [messages-container];
    - [fileList]: the [file-list] above the input row, when rendered;
    - [uploadButtonDisabled], [textareaValue], [textareaDisabled],
      [sendButtonDisabled]: the attributes of the input row;
    - [uploadStatusLine]: the [upload-status] line, when rendered. *)
Record ChatScreen `{Payloads} := mkChatScreen {
  messagesArea : MessagesArea;
  loadingIndicator : bool;
  fileList : option (list Attachment.FileChip);
  uploadButtonDisabled : bool;
  textareaValue : jsstring;
  textareaDisabled : bool;
  sendButtonDisabled : bool;
  uploadStatusLine : option jsstring
}.
Arguments mkChatScreen {_} messagesArea loadingIndicator fileList
  uploadButtonDisabled textareaValue textareaDisabled sendButtonDisabled
  uploadStatusLine.

(** What the component returns: the [Welcome to LLM Council] screen, which
    has neither messages nor an input form, or the chat screen. *)
Inductive View `{Payloads} :=
| Welcome
| Chat (screen : ChatScreen).
Arguments Welcome {_}.
Arguments Chat {_} screen.

(** [{uploadStatus && <div className="upload-status">{uploadStatus}</div>}] *)
Definition renderUploadStatus (uploadStatus : jsstring) : option jsstring :=
  if truthy uploadStatus then Some uploadStatus else None.

(** The text area's [onChange={(e) => setInput(e.target.value)}]; [value]
    is [e.target.value]. *)
Definition onChangeInput (value : jsstring) : Handler unit :=
  setInput value.

(* ===================================================================== *)
(** ** Input handlers of [src/unnamed/part_000] *)
(* ===================================================================== *)

Module Part000.

(** [handleSubmit] (lines 29-35); [isLoading] is the prop. *)
Definition handleSubmit (isLoading : bool) : Handler unit :=
  preventDefault ;;
  input <- getInput ;;
  if truthy (trim input) && negb isLoading then
    call (OnSendMessage input) ;;
    setInput []
  else
    ret tt.

(** [handleKeyDown] (lines 37-43). *)
Definition handleKeyDown (isLoading : bool) (e : KeyboardEvent)
  : Handler unit :=
  if strictEq (key e) (lit "Enter") && negb (shiftKey e) then
    preventDefault ;;
    handleSubmit isLoading
  else
    ret tt.

(** The send button's [disabled={!input.trim() || isLoading}] (line 206). *)
Definition sendDisabled (input : jsstring) (isLoading : bool) : bool :=
  negb (truthy (trim input)) || isLoading.

Section Render.
Context `{Payloads}.

(** The stage-1 part of an assistant message (lines 106-113). *)
Definition renderStage1 (msg : Message) : list Node :=
  when (loadingFlag loading_stage1 msg)
       (StageLoading
          (lit "Running Stage 1: Collecting individual responses..."))
  ++ whenSome (stage1 msg) Stage1.

(** The stage-2 part (lines 115-128). *)
Definition renderStage2 (msg : Message) : list Node :=
  when (loadingFlag loading_stage2 msg)
       (StageLoading (lit "Running Stage 2: Peer rankings..."))
  ++ whenSome (stage2 msg)
       (fun rankings =>
          Stage2 rankings
                 (metadataLabelToModel msg)
                 (metadataAggregateRankings msg)).

(** The stage-3 part (lines 130-137). *)
Definition renderStage3 (msg : Message) : list Node :=
  when (loadingFlag loading_stage3 msg && negb (stage3Response msg))
       (StageLoading (lit "Running Stage 3: Final synthesis..."))
  ++ whenSome (stage3 msg) Stage3.

(** One message of [conversation.messages.map] (lines 91-141). *)
Definition renderMessage (msg : Message) : MessageGroup :=
  if strictEq (role msg) (lit "user") then
    UserMessage [MessageLabel (lit "You"); Markdown (content msg)]
  else
    AssistantMessage
      (MessageLabel (lit "LLM Council")
       :: renderStage1 msg ++ renderStage2 msg ++ renderStage3 msg).

(** [conversation.messages.map(...)] *)
Definition renderMessages (messages : list Message) : list MessageGroup :=
  map renderMessage messages.

End Render.

Section Component.
Context `{Payloads}.

(** What the component returns (lines 71-215) for the props [conversation]
    and [isLoading] and the state held in [w]. *)
Definition render (conversation : option Conversation) (isLoading : bool)
    (w : World) : View :=
  match conversation with
  | None => Welcome
  | Some conversation =>
      Chat (mkChatScreen
              (if (List.length (messages conversation) =? 0)%nat
               then StartConversation
               else MessageGroups (renderMessages (messages conversation)))
              isLoading
              (Attachment.renderFileList (uploadedFiles w))
              isLoading
              (input w)
              isLoading
              (sendDisabled (input w) isLoading)
              (renderUploadStatus (uploadStatus w)))
  end.

End Component.

End Part000.

(* ===================================================================== *)
(** ** Input handlers of [src/frontend/src/components/ChatInterface.jsx] *)
(* ===================================================================== *)

Module ChatInterfaceJsx.

(** [handleSubmit] (lines 27-33). *)
Definition handleSubmit : Handler unit :=
  preventDefault ;;
  input <- getInput ;;
  if truthy (trim input) then
    call (OnSendMessage input) ;;
    setInput []
  else
    ret tt.

(** [handleKeyDown] (lines 35-40). *)
Definition handleKeyDown (e : KeyboardEvent) : Handler unit :=
  if strictEq (key e) (lit "Enter") && negb (shiftKey e) then
    preventDefault ;;
    handleSubmit
  else
    ret tt.

(** The send button's [disabled={!input.trim()}] (line 172). *)
Definition sendDisabled (input : jsstring) : bool :=
  negb (truthy (trim input)).

Section Render.
Context `{Payloads}.

(** The stage-1 part of an assistant message (lines 97-104). *)
Definition renderStage1 (msg : Message) : list Node :=
  when (loadingFlag loading_stage1 msg)
       (StageLoading (lit "Collecting individual responses..."))
  ++ whenSome (stage1 msg) Stage1.

(** The stage-3 part (lines 106-113). *)
Definition renderStage3 (msg : Message) : list Node :=
  when (loadingFlag loading_stage3 msg && negb (stage3Response msg))
       (StageLoading (lit "Synthesizing final answer..."))
  ++ whenSome (stage3 msg) Stage3.

(** One message of [conversation.messages.map] (lines 87-117). *)
Definition renderMessage (msg : Message) : MessageGroup :=
  if strictEq (role msg) (lit "user") then
    UserMessage [Markdown (content msg)]
  else
    AssistantMessage (renderStage1 msg ++ renderStage3 msg).

(** [conversation.messages.map(...)] *)
Definition renderMessages (messages : list Message) : list MessageGroup :=
  map renderMessage messages.

End Render.

Section Component.
Context `{Payloads}.

(** What the component returns (lines 67-181) for the prop [conversation]
    and the state held in [w]. This version renders no loading indicator
    and disables neither the upload button nor the text area. *)
Definition render (conversation : option Conversation) (w : World) : View :=
  match conversation with
  | None => Welcome
  | Some conversation =>
      Chat (mkChatScreen
              (if (List.length (messages conversation) =? 0)%nat
               then StartConversation
               else MessageGroups (renderMessages (messages conversation)))
              false
              (Attachment.renderFileList (uploadedFiles w))
              false
              (input w)
              false
              (sendDisabled (input w))
              (renderUploadStatus (uploadStatus w)))
  end.

End Component.

End ChatInterfaceJsx.

(* ===================================================================== *)
(** ** Display states and reference definitions *)
(* ===================================================================== *)

Section Display.
Context `{Payloads}.

(** A stage shows as pending when a [stage-loading] spinner is rendered. *)
Definition isStageLoading (n : Node) : bool :=
  match n with StageLoading _ => true | _ => false end.

(** Stage 3 shows as ready when the [Stage3] component is rendered. *)
Definition isStage3 (n : Node) : bool :=
  match n with Stage3 _ => true | _ => false end.

Definition showsPending (nodes : list Node) : bool :=
  existsb isStageLoading nodes.

Definition showsStage3 (nodes : list Node) : bool :=
  existsb isStage3 nodes.

End Display.

(** Removal as the specification words it: only the first entry bearing the
    name goes, later entries of the same name stay. *)
Fixpoint removeFirstNamed (fname : jsstring) (l : list UploadedFile)
  : list UploadedFile :=
  match l with
  | [] => []
  | f :: rest =>
      if strictEq (name f) fname then rest
      else f :: removeFirstNamed fname rest
  end.

(** Payloads as plain text, for concrete messages. *)
#[local] Instance textPayloads : Payloads := {|
  Stage1Data := list (jsstring * jsstring);
  Stage2Data := list (jsstring * jsstring);
  Stage3Extra := jsstring;
  LabelToModel := list (jsstring * jsstring);
  AggregateRankings := list jsstring
|}.

(* ===================================================================== *)
(** ** Concrete worlds, events and messages *)
(* ===================================================================== *)

(** A draft with a leading space. *)
Definition draftWorld : World := withInput (lit " hi") initialWorld.

Definition pdfA : File := mkFile (lit "a.pdf") [37; 80; 68; 70]%N.
Definition txtB : File := mkFile (lit "b.txt") [104; 105]%N.

(** Two chips of the same name, as left by uploading [a.pdf] twice. *)
Definition twiceUploaded : World :=
  withUploadedFiles
    [mkUploadedFile (lit "a.pdf") 1000; mkUploadedFile (lit "a.pdf") 2000]
    initialWorld.

(** Two uploads started one after the other, both settling while
    [Date.now()] reads 1000. *)
Definition sameMillisecond : World :=
  run (Attachment.handleFileChange_settle
         (Fulfilled (mkUploadResult (lit "b.txt"))) 1000)
    (run (Attachment.handleFileChange_settle
            (Fulfilled (mkUploadResult (lit "a.pdf"))) 1000)
       (run (Attachment.handleFileChange_begin
               (mkChangeEvent (Some [txtB])))
          (run (Attachment.handleFileChange_begin
                  (mkChangeEvent (Some [pdfA])))
             initialWorld))).

(** An assistant message whose stage 3 has arrived with an empty response
    while its loading flag is still set. *)
Definition emptyAnswer : Message :=
  mkMessage (lit "assistant") None None None
            (Some (mkStage3Data [] (lit "model-a")))
            (Some (mkLoading false false true))
            None.

(** A final answer. *)
Definition paris : @Stage3Data textPayloads :=
  mkStage3Data (lit "Paris") (lit "model-a").

(** An assistant message whose final answer has arrived while its stage-3
    loading flag is still set. *)
Definition lateFlagAnswer : Message :=
  mkMessage (lit "assistant") None None None
            (Some paris)
            (Some (mkLoading false false true))
            None.

(** An assistant message with stage 2 data and metadata. *)
Definition rankedAnswer : Message :=
  mkMessage (lit "assistant") None
            (Some [(lit "model-a", lit "Paris")])
            (Some [(lit "model-a", lit "1. Response A")])
            None
            (Some (mkLoading false false true))
            (Some (mkMetadata (Some [(lit "Response A", lit "model-a")])
                              (Some [lit "model-a"]))).

(** The conversation of the rendering scenario: a question, and an answer
    whose stage 1 is in and whose stage 2 is under way. *)
Definition franceConversation : list Message :=
  [ mkMessage (lit "user") (Some (lit "What is the capital of France?"))
              None None None None None;
    mkMessage (lit "assistant") None
              (Some [(lit "modelA", lit "Paris"); (lit "modelB", lit "Paris")])
              None None
              (Some (mkLoading false true false))
              None ].

(** A code unit that [trim] strips, and one that it keeps. *)
Definition blank (c : N) : Prop := isWhiteSpace c = true.
Definition visible (c : N) : Prop := isWhiteSpace c = false.

(** The chips of the [file-list] element that the component returns, none
    when it is not rendered. They are what the screen shows as long as
    their keys are pairwise distinct; with two equal keys React's
    reconciliation by key may leave a chip on screen that this list no
    longer holds. *)
Definition shownChips (uploadedFiles : list UploadedFile)
  : list Attachment.FileChip :=
  match Attachment.renderFileList uploadedFiles with
  | Some chips => chips
  | None => []
  end.

(** An upload, or a removal, that ran to its end with nothing in between. *)
Definition uploaded (file : File) (settled : Settled UploadResult) (now : Z)
    (w : World) : World :=
  run (Attachment.handleFileChange (mkChangeEvent (Some [file])) settled now)
      w.

Definition removed (fname : jsstring) (settled : Settled unit) (w : World)
  : World :=
  run (Attachment.handleRemoveFile fname settled) w.

(* ===================================================================== *)
(** ** Sessions *)
(* ===================================================================== *)

(** What can happen to the mounted component: the DOM events its handlers
    are attached to, and the settling of a promise a handler awaits. The
    [isLoading] carried by a submission or a key press is the prop's value
    at that moment. *)
Inductive SessionEvent :=
| InputChanged (value : jsstring)
| SubmitRequested (isLoading : bool)
| KeyDown (isLoading : bool) (e : KeyboardEvent)
| FileChanged (e : ChangeEvent)
| UploadSettled (settled : Settled UploadResult) (now : Z)
| RemoveClicked (fname : jsstring)
| RemoveSettled (fname : jsstring) (settled : Settled unit).

(** The handler that an event runs, with the handlers of [part_000]. A DOM
    event arrives not yet cancelled. *)
Definition step (w : World) (ev : SessionEvent) : World :=
  match ev with
  | InputChanged value =>
      run (onChangeInput value) (withDefaultPrevented false w)
  | SubmitRequested isLoading =>
      run (Part000.handleSubmit isLoading) (withDefaultPrevented false w)
  | KeyDown isLoading e =>
      run (Part000.handleKeyDown isLoading e) (withDefaultPrevented false w)
  | FileChanged e =>
      run (Attachment.handleFileChange_begin e)
          (withDefaultPrevented false w)
  | UploadSettled settled now =>
      run (Attachment.handleFileChange_settle settled now) w
  | RemoveClicked fname =>
      run (Attachment.handleRemoveFile_begin fname)
          (withDefaultPrevented false w)
  | RemoveSettled fname settled =>
      run (Attachment.handleRemoveFile_settle fname settled) w
  end.

(** The world after a sequence of events, oldest first. *)
Definition replay (events : list SessionEvent) (w : World) : World :=
  fold_left step events w.

(** The successful uploads of a session were stamped by a clock that
    advanced between them: each [Date.now()] read at a fulfilled upload is
    later than [after] and than every earlier such reading. *)
Fixpoint stampsAdvance (after : Z) (events : list SessionEvent) : Prop :=
  match events with
  | [] => True
  | UploadSettled (Fulfilled _) now :: rest =>
      (after < now)%Z /\ stampsAdvance now rest
  | _ :: rest => stampsAdvance after rest
  end.

(** A session with three uploads, one of them failing, a removal, typing
    and sending. *)
Definition busySession : list SessionEvent :=
  [ FileChanged (mkChangeEvent (Some [pdfA]));
    UploadSettled (Fulfilled (mkUploadResult (lit "a.pdf"))) 1000;
    InputChanged (lit "summarise it");
    FileChanged (mkChangeEvent (Some [txtB]));
    UploadSettled (Rejected (mkJsError (lit "too large"))) 1000;
    FileChanged (mkChangeEvent (Some [txtB]));
    UploadSettled (Fulfilled (mkUploadResult (lit "b.txt"))) 1500;
    KeyDown false (mkKeyboardEvent (lit "Enter") false);
    RemoveClicked (lit "a.pdf");
    RemoveSettled (lit "a.pdf") (Fulfilled tt);
    FileChanged (mkChangeEvent (Some [pdfA]));
    UploadSettled (Fulfilled (mkUploadResult (lit "a.pdf"))) 2000 ].

(* ===================================================================== *)
(** ** Concrete runs *)
(* ===================================================================== *)

Example trim_both_ends :
  trim (lit "  hi there ") = lit "hi there".
Proof. reflexivity. Qed.

Example trim_keeps_inner_space_and_strips_nbsp :
  trim ([160; 9] ++ lit "a b" ++ [10; 8232; 65279])%N = lit "a b".
Proof. reflexivity. Qed.

Example trim_of_blank_draft : trim (lit "   ") = [].
Proof. reflexivity. Qed.

Example submit_of_blank_draft_sends_nothing :
  calls (run (Part000.handleSubmit false)
             (withInput (lit "   ") initialWorld)) = [].
Proof. reflexivity. Qed.

Example submit_while_loading_sends_nothing :
  run (Part000.handleSubmit true) (withInput (lit "hi") initialWorld)
  = withDefaultPrevented true (withInput (lit "hi") initialWorld).
Proof. reflexivity. Qed.

Example submit_sends_and_clears :
  run (Part000.handleSubmit false) (withInput (lit "hi") initialWorld)
  = mkWorld [] [] [] (Some []) true [OnSendMessage (lit "hi")].
Proof. reflexivity. Qed.

Example shift_enter_changes_nothing :
  run (Part000.handleKeyDown false (mkKeyboardEvent (lit "Enter") true))
      (withInput (lit "hi") initialWorld)
  = withInput (lit "hi") initialWorld.
Proof. reflexivity. Qed.

Example upload_a_pdf :
  run (Attachment.handleFileChange (mkChangeEvent (Some [pdfA]))
         (Fulfilled (mkUploadResult (lit "a.pdf"))) 1700000000000)
      initialWorld
  = mkWorld [] [] [mkUploadedFile (lit "a.pdf") 1700000000000]
            (Some []) false [OnUploadFile pdfA].
Proof. reflexivity. Qed.

Example upload_fails :
  run (Attachment.handleFileChange (mkChangeEvent (Some [pdfA]))
         (Rejected (mkJsError (lit "Upload failed"))) 1700000000000)
      initialWorld
  = mkWorld [] (lit "Error: Upload failed") [] (Some []) false
            [OnUploadFile pdfA].
Proof. reflexivity. Qed.

(** A second file chosen before the first upload resolves: two calls go
    out, and the entries appear in the order in which the uploads settle. *)
Example overlapping_uploads_in_completion_order :
  let chosen :=
    run (Attachment.handleFileChange_begin (mkChangeEvent (Some [txtB])))
      (run (Attachment.handleFileChange_begin (mkChangeEvent (Some [pdfA])))
         initialWorld) in
  let settled :=
    run (Attachment.handleFileChange_settle
           (Fulfilled (mkUploadResult (lit "a.pdf"))) 2000)
      (run (Attachment.handleFileChange_settle
              (Fulfilled (mkUploadResult (lit "b.txt"))) 1000)
         chosen) in
  calls chosen = [OnUploadFile pdfA; OnUploadFile txtB]
  /\ uploadedFiles settled
     = [mkUploadedFile (lit "b.txt") 1000; mkUploadedFile (lit "a.pdf") 2000].
Proof. split; reflexivity. Qed.

Example france_rendering :
  Part000.renderMessages franceConversation
  = [ UserMessage
        [MessageLabel (lit "You");
         Markdown (Some (lit "What is the capital of France?"))];
      AssistantMessage
        [MessageLabel (lit "LLM Council");
         Stage1 [(lit "modelA", lit "Paris"); (lit "modelB", lit "Paris")];
         StageLoading (lit "Running Stage 2: Peer rankings...")] ].
Proof. reflexivity. Qed.

(* ===================================================================== *)
(** ** Running handlers *)
(* ===================================================================== *)

Lemma run_bind {A B} (m : Handler A) (k : A -> Handler B) (w : World) :
  run (bind m k) w = run (k (evalState m w)) (run m w).
Proof.
  unfold run, execState, evalState. cbn.
  destruct (runState m w). reflexivity.
Qed.

Lemma run_ret {A} (a : A) (w : World) : run (ret a) w = w.
Proof. reflexivity. Qed.

Lemma run_update (f : World -> World) (w : World) : run (update f) w = f w.
Proof. reflexivity. Qed.

Lemma run_getInput (w : World) : run getInput w = w.
Proof. reflexivity. Qed.

Lemma eval_getInput (w : World) : evalState getInput w = input w.
Proof. reflexivity. Qed.

Lemma run_if {A} (b : bool) (h1 h2 : Handler A) (w : World) :
  run (if b then h1 else h2) w = if b then run h1 w else run h2 w.
Proof. destruct b; reflexivity. Qed.

Lemma run_setInput v w : run (setInput v) w = withInput v w.
Proof. reflexivity. Qed.

Lemma run_setUploadStatus v w :
  run (setUploadStatus v) w = withUploadStatus v w.
Proof. reflexivity. Qed.

Lemma run_setUploadedFiles u w :
  run (setUploadedFiles u) w = withUploadedFiles (u (uploadedFiles w)) w.
Proof. reflexivity. Qed.

Lemma run_preventDefault w :
  run preventDefault w = withDefaultPrevented true w.
Proof. reflexivity. Qed.

Lemma run_call c w : run (call c) w = withCalls (calls w ++ [c]) w.
Proof. reflexivity. Qed.

Create Rewrite HintDb handler.
#[local] Hint Rewrite @run_bind @run_ret @run_if run_getInput eval_getInput
  run_setInput run_setUploadStatus run_setUploadedFiles run_preventDefault
  run_call : handler.


(* ===================================================================== *)
(** ** Strings *)
(* ===================================================================== *)

Lemma strictEq_spec (a b : jsstring) : strictEq a b = true <-> a = b.
Proof.
  revert b. induction a as [|x a IH]; intros [|y b]; simpl;
    try (split; [discriminate | discriminate]); try tauto.
  rewrite andb_true_iff, N.eqb_eq, IH.
  split; [intros [-> ->]; reflexivity | intros E; injection E; auto].
Qed.

Lemma strictEq_false (a b : jsstring) : strictEq a b = false <-> a <> b.
Proof.
  rewrite <- strictEq_spec. destruct (strictEq a b); split; congruence.
Qed.

Lemma trimStart_nil_iff (s : jsstring) :
  trimStart s = [] <-> Forall (fun c => isWhiteSpace c = true) s.
Proof.
  induction s as [|c s IH]; simpl.
  - split; auto.
  - destruct (isWhiteSpace c) eqn:E.
    + rewrite IH. split; [intros F; constructor; assumption |].
      intros F. inversion F; assumption.
    + split; [discriminate |].
      intros F. inversion F; congruence.
Qed.

Lemma trimStart_head (s : jsstring) c r :
  trimStart s = c :: r -> isWhiteSpace c = false.
Proof.
  induction s as [|c0 s IH]; simpl; [discriminate |].
  destruct (isWhiteSpace c0) eqn:W; [exact IH |].
  intros E. injection E as -> _. exact W.
Qed.

(** The trimmed draft is empty exactly when the draft is white space only. *)
Lemma trim_empty_iff (s : jsstring) :
  truthy (trim s) = false <-> Forall (fun c => isWhiteSpace c = true) s.
Proof.
  unfold trim, trimEnd.
  rewrite <- trimStart_nil_iff.
  destruct (trimStart s) as [|c r] eqn:E.
  - simpl. tauto.
  - split; [| discriminate].
    intros T. exfalso.
    pose proof (trimStart_head s c r E) as W.
    destruct (trimStart (rev (c :: r))) as [|c' r'] eqn:E'.
    + apply trimStart_nil_iff in E'.
      rewrite Forall_forall in E'.
      specialize (E' c). rewrite <- in_rev in E'.
      specialize (E' (or_introl eq_refl)). congruence.
    + simpl in T. destruct (rev r' ++ [c']) eqn:E''; [| discriminate].
      destruct (rev r'); discriminate.
Qed.

(* ===================================================================== *)
(** ** Submission *)
(* ===================================================================== *)

(** Unfolds a handler into the world it leaves. *)
Ltac run_handler :=
  autorewrite with handler; cbn [input uploadStatus uploadedFiles fileInput
    defaultPrevented calls withInput withUploadStatus withUploadedFiles
    withFileInput withDefaultPrevented withCalls].

Lemma run_handleSubmit_part000 (isLoading : bool) (w : World) :
  run (Part000.handleSubmit isLoading) w =
    if truthy (trim (input w)) && negb isLoading
    then withInput []
           (withCalls (calls w ++ [OnSendMessage (input w)])
              (withDefaultPrevented true w))
    else withDefaultPrevented true w.
Proof.
  unfold Part000.handleSubmit. run_handler.
  destruct (truthy (trim (input w)) && negb isLoading); reflexivity.
Qed.

Lemma run_handleSubmit_jsx (w : World) :
  run ChatInterfaceJsx.handleSubmit w =
    if truthy (trim (input w))
    then withInput []
           (withCalls (calls w ++ [OnSendMessage (input w)])
              (withDefaultPrevented true w))
    else withDefaultPrevented true w.
Proof.
  unfold ChatInterfaceJsx.handleSubmit. run_handler.
  destruct (truthy (trim (input w))); reflexivity.
Qed.

(** [handleSubmit] cancels the event itself, so it does the same on an
    event that is cancelled already. *)
Lemma handleSubmit_on_cancelled_part000 (isLoading : bool) (w : World) :
  run (Part000.handleSubmit isLoading) (withDefaultPrevented true w)
  = run (Part000.handleSubmit isLoading) w.
Proof. rewrite !run_handleSubmit_part000. reflexivity. Qed.

Lemma handleSubmit_on_cancelled_jsx (w : World) :
  run ChatInterfaceJsx.handleSubmit (withDefaultPrevented true w)
  = run ChatInterfaceJsx.handleSubmit w.
Proof. rewrite !run_handleSubmit_jsx. reflexivity. Qed.

Lemma snoc_neq {A} (l : list A) (x : A) : l ++ [x] <> l.
Proof.
  intros E. apply (f_equal (@List.length A)) in E.
  rewrite length_app in E. simpl in E. lia.
Qed.

(** C1, as claimed, fails: with the draft [" hi"] and [isLoading] false the
    trimmed draft is non-empty, and what [submit()] hands to the send
    collaborator is not the trimmed draft (in either version of the
    component). *)
Lemma submit_sends_untrimmed_draft :
  trim (input draftWorld) = lit "hi"
  /\ calls (run (Part000.handleSubmit false) draftWorld)
     = [OnSendMessage (lit " hi")]
  /\ calls (run (Part000.handleSubmit false) draftWorld)
     <> calls draftWorld ++ [OnSendMessage (trim (input draftWorld))]
  /\ calls (run ChatInterfaceJsx.handleSubmit draftWorld)
     <> calls draftWorld ++ [OnSendMessage (trim (input draftWorld))].
Proof.
  split; [reflexivity | split; [reflexivity | split]];
    vm_compute; discriminate.
Qed.

(** C1, amended: [submit()] sends nothing and leaves the draft as it is
    when the trimmed draft is empty or [isLoading] is true; otherwise it
    calls the send collaborator exactly once, with the draft as typed (not
    trimmed), and clears the draft. Either way it only cancels the event
    besides. In [ChatInterface.jsx], which has no [isLoading] prop, the
    same holds with the trimmed-draft test alone. *)
Theorem submit_guard_and_effect :
  (forall (isLoading : bool) (w : World),
     run (Part000.handleSubmit isLoading) w =
       if negb (truthy (trim (input w))) || isLoading
       then withDefaultPrevented true w
       else withInput []
              (withCalls (calls w ++ [OnSendMessage (input w)])
                 (withDefaultPrevented true w)))
  /\ (forall w : World,
        run ChatInterfaceJsx.handleSubmit w =
          if negb (truthy (trim (input w)))
          then withDefaultPrevented true w
          else withInput []
                 (withCalls (calls w ++ [OnSendMessage (input w)])
                    (withDefaultPrevented true w))).
Proof.
  split.
  - intros isLoading w. rewrite run_handleSubmit_part000.
    destruct (truthy (trim (input w))), isLoading; reflexivity.
  - intros w. rewrite run_handleSubmit_jsx.
    destruct (truthy (trim (input w))); reflexivity.
Qed.

(** C4, as claimed, fails on [ChatInterface.jsx]: with the draft ["hi"]
    and the [isLoading] signal true, the claimed disabled state, the
    negation of (the trimmed draft is non-empty and [isLoading] is false),
    is true, but that file reads no [isLoading]: its send button is
    enabled and [submit()] sends the draft. *)
Lemma jsx_send_button_ignores_isLoading :
  negb (truthy (trim (lit "hi")) && negb true) = true
  /\ ChatInterfaceJsx.sendDisabled (lit "hi") = false
  /\ ChatInterfaceJsx.sendDisabled (lit "hi")
     <> negb (truthy (trim (lit "hi")) && negb true)
  /\ calls (run ChatInterfaceJsx.handleSubmit
              (withInput (lit "hi") initialWorld))
     = [OnSendMessage (lit "hi")].
Proof.
  split; [reflexivity | split; [reflexivity | split; [| reflexivity]]].
  vm_compute. discriminate.
Qed.

(** C4, amended: in [part_000], for every draft and every [isLoading], the
    send button's disabled state is the negation of (the trimmed draft is
    non-empty and [isLoading] is false); in [ChatInterface.jsx], which
    takes no [isLoading] prop, it is the negation of (the trimmed draft is
    non-empty) alone, whatever the signal is. In both files the button is
    disabled exactly when [submit()] sends nothing, so the button's
    condition and the guard of [submit()] never diverge. *)
Theorem send_button_matches_submit_guard :
  (forall (d : jsstring) (isLoading : bool),
     Part000.sendDisabled d isLoading
     = negb (truthy (trim d) && negb isLoading))
  /\ (forall (isLoading : bool) (w : World),
        Part000.sendDisabled (input w) isLoading = true
        <-> calls (run (Part000.handleSubmit isLoading) w) = calls w)
  /\ (forall d : jsstring,
        ChatInterfaceJsx.sendDisabled d = negb (truthy (trim d)))
  /\ (forall w : World,
        ChatInterfaceJsx.sendDisabled (input w) = true
        <-> calls (run ChatInterfaceJsx.handleSubmit w) = calls w).
Proof.
  split; [| split; [| split]].
  - intros d isLoading. unfold Part000.sendDisabled.
    destruct (truthy (trim d)), isLoading; reflexivity.
  - intros isLoading w.
    unfold Part000.sendDisabled. rewrite run_handleSubmit_part000.
    destruct (truthy (trim (input w))), isLoading; simpl;
      split; intros E;
      first [reflexivity | discriminate | exfalso; apply (snoc_neq _ _ E)].
  - intros d. reflexivity.
  - intros w.
    unfold ChatInterfaceJsx.sendDisabled. rewrite run_handleSubmit_jsx.
    destruct (truthy (trim (input w))); simpl;
      split; intros E;
      first [reflexivity | discriminate | exfalso; apply (snoc_neq _ _ E)].
Qed.

(** C9: a key-down of Enter without Shift does exactly what [submit()]
    does; a key-down of Enter with Shift, like that of any other key,
    changes nothing: nothing is sent, the draft stays, and the event is
    not cancelled, so the text area's own handling of the key (a new line,
    for Shift+Enter) goes ahead. Both versions of the component. *)
Theorem keydown_enter_is_submit :
  (forall (isLoading : bool) (e : KeyboardEvent) (w : World),
     run (Part000.handleKeyDown isLoading e) w =
       if strictEq (key e) (lit "Enter")
       then if shiftKey e then w
            else run (Part000.handleSubmit isLoading) w
       else w)
  /\ (forall (e : KeyboardEvent) (w : World),
        run (ChatInterfaceJsx.handleKeyDown e) w =
          if strictEq (key e) (lit "Enter")
          then if shiftKey e then w
               else run ChatInterfaceJsx.handleSubmit w
          else w).
Proof.
  split.
  - intros isLoading e w. unfold Part000.handleKeyDown.
    destruct (strictEq (key e) (lit "Enter")), (shiftKey e);
      cbn [andb negb]; try apply run_ret.
    rewrite run_bind, run_preventDefault.
    apply handleSubmit_on_cancelled_part000.
  - intros e w. unfold ChatInterfaceJsx.handleKeyDown.
    destruct (strictEq (key e) (lit "Enter")), (shiftKey e);
      cbn [andb negb]; try apply run_ret.
    rewrite run_bind, run_preventDefault.
    apply handleSubmit_on_cancelled_jsx.
Qed.

(* ===================================================================== *)
(** ** Attachments: upload *)
(* ===================================================================== *)

Lemma run_handleFileChange_begin (file : File) (others : list File) w :
  runState (Attachment.handleFileChange_begin
              (mkChangeEvent (Some (file :: others)))) w
  = (Some file,
     withCalls (calls w ++ [OnUploadFile file])
       (withUploadStatus (lit "Uploading...") w)).
Proof. reflexivity. Qed.

(** Between selecting the file and the upload settling, the status reads
    [Uploading...] and the attachments are those held before. *)
Lemma upload_in_flight (file : File) (others : list File) w :
  let w' := run (Attachment.handleFileChange_begin
                   (mkChangeEvent (Some (file :: others)))) w in
  uploadStatus w' = lit "Uploading..."
  /\ uploadedFiles w' = uploadedFiles w
  /\ calls w' = calls w ++ [OnUploadFile file].
Proof. repeat split. Qed.

(** The settled half on a rejected upload, from whatever world it resumes
    in. *)
Lemma upload_settle_rejected (error : JsError) (now : Z) w :
  let w' := run (Attachment.handleFileChange_settle (Rejected error) now) w in
  uploadedFiles w' = uploadedFiles w
  /\ uploadStatus w' = lit "Error: " ++ message error
  /\ calls w' = calls w.
Proof. repeat split. Qed.

(** The settled half on a fulfilled upload, from whatever world it resumes
    in. *)
Lemma upload_settle_fulfilled (result : UploadResult) (now : Z) w :
  let w' := run (Attachment.handleFileChange_settle (Fulfilled result) now) w in
  uploadedFiles w'
  = uploadedFiles w ++ [mkUploadedFile (filename result) now]
  /\ uploadStatus w' = []
  /\ calls w' = calls w.
Proof. repeat split. Qed.

Lemma run_handleFileChange (file : File) (others : list File)
    (settled : Settled UploadResult) (now : Z) w :
  run (Attachment.handleFileChange
         (mkChangeEvent (Some (file :: others))) settled now) w
  = run (Attachment.handleFileChange_settle settled now)
      (run (Attachment.handleFileChange_begin
              (mkChangeEvent (Some (file :: others)))) w).
Proof. reflexivity. Qed.

(** C5: when the upload collaborator rejects, the attachments are those
    held before the file was chosen, and the status becomes [Error: ]
    followed by the error's message: a non-empty string that contains the
    message. *)
Theorem failed_upload_reports_and_keeps_attachments :
  forall (file : File) (others : list File) (error : JsError) (now : Z)
         (w : World),
    let w' := run (Attachment.handleFileChange
                     (mkChangeEvent (Some (file :: others)))
                     (Rejected error) now) w in
    uploadedFiles w' = uploadedFiles w
    /\ uploadStatus w' = lit "Error: " ++ message error
    /\ uploadStatus w' <> []
    /\ (exists before after,
          uploadStatus w' = before ++ message error ++ after)
    /\ calls w' = calls w ++ [OnUploadFile file].
Proof.
  intros file others error now w w'. subst w'.
  rewrite run_handleFileChange.
  destruct (upload_settle_rejected error now
              (run (Attachment.handleFileChange_begin
                      (mkChangeEvent (Some (file :: others)))) w))
    as (Hfiles & Hstatus & Hcalls).
  rewrite Hfiles, Hstatus, Hcalls.
  repeat split.
  - discriminate.
  - exists (lit "Error: "), []. rewrite app_nil_r. reflexivity.
Qed.

(** C6: when the upload collaborator resolves with a filename, the
    attachments become those held before followed by one new entry, named
    as the collaborator reported and stamped with [Date.now()], and the
    status is empty. *)
Theorem successful_upload_appends_one_entry :
  forall (file : File) (others : list File) (result : UploadResult)
         (now : Z) (w : World),
    let w' := run (Attachment.handleFileChange
                     (mkChangeEvent (Some (file :: others)))
                     (Fulfilled result) now) w in
    uploadedFiles w'
    = uploadedFiles w ++ [mkUploadedFile (filename result) now]
    /\ List.length (uploadedFiles w') = S (List.length (uploadedFiles w))
    /\ uploadStatus w' = []
    /\ calls w' = calls w ++ [OnUploadFile file].
Proof.
  intros file others result now w w'. subst w'.
  rewrite run_handleFileChange.
  destruct (upload_settle_fulfilled result now
              (run (Attachment.handleFileChange_begin
                      (mkChangeEvent (Some (file :: others)))) w))
    as (Hfiles & Hstatus & Hcalls).
  rewrite Hfiles, Hstatus, Hcalls.
  repeat split.
  cbn [run]. rewrite length_app. simpl. lia.
Qed.

(** C10: a change event that carries no file, its file list absent or
    empty, leaves everything as it was: no call to the upload
    collaborator, the same status, the same attachments, and nothing is
    awaited. *)
Theorem file_change_without_file_is_noop :
  forall (settled : Settled UploadResult) (now : Z) (w : World),
    run (Attachment.handleFileChange (mkChangeEvent None) settled now) w = w
    /\ run (Attachment.handleFileChange (mkChangeEvent (Some [])) settled now)
         w = w
    /\ runState (Attachment.handleFileChange_begin (mkChangeEvent None)) w
       = (None, w)
    /\ runState (Attachment.handleFileChange_begin (mkChangeEvent (Some [])))
         w = (None, w).
Proof.
  intros settled now w. repeat split.
Qed.

(** An entry stamped later than every entry held keeps the ids distinct. *)
Lemma later_stamp_keeps_ids_distinct (result : UploadResult) (now : Z) w :
  NoDup (map id (uploadedFiles w)) ->
  (forall f, In f (uploadedFiles w) -> (id f < now)%Z) ->
  NoDup (map id (uploadedFiles
                   (run (Attachment.handleFileChange_settle
                           (Fulfilled result) now) w))).
Proof.
  intros Hnodup Hlater.
  destruct (upload_settle_fulfilled result now w) as (-> & _).
  rewrite map_app. simpl.
  assert (Hnot : ~ In now (map id (uploadedFiles w))).
  { intros Hin. apply in_map_iff in Hin. destruct Hin as (f & Hid & Hf).
    specialize (Hlater f Hf). lia. }
  clear Hlater. induction (map id (uploadedFiles w)) as [|x l IH]; simpl.
  - constructor; [intros [] | constructor].
  - inversion Hnodup; subst. constructor.
    + rewrite in_app_iff. simpl. intros [Hin | [Heq | []]].
      * contradiction.
      * apply Hnot. left. symmetry. exact Heq.
    + apply IH; [assumption |]. intros Hin. apply Hnot. right. exact Hin.
Qed.

(** C8 fails on the code: two uploads whose promises settle while
    [Date.now()] reads the same millisecond leave two entries with the
    same [id], which the file list then renders as two sibling chips with
    the same key. *)
Theorem same_millisecond_uploads_share_an_id :
  uploadedFiles sameMillisecond
  = [mkUploadedFile (lit "a.pdf") 1000; mkUploadedFile (lit "b.txt") 1000]
  /\ ~ NoDup (map id (uploadedFiles sameMillisecond))
  /\ option_map (map Attachment.chipKey)
       (Attachment.renderFileList (uploadedFiles sameMillisecond))
     = Some [1000; 1000]%Z.
Proof.
  split; [reflexivity | split; [| reflexivity]].
  intros Hnodup. change (NoDup [1000; 1000]%Z) in Hnodup.
  inversion Hnodup as [|x l Hnot _]; subst.
  apply Hnot. left. reflexivity.
Qed.

(* ===================================================================== *)
(** ** Attachments: removal *)
(* ===================================================================== *)

Lemma run_handleRemoveFile (fname : jsstring) (settled : Settled unit) w :
  run (Attachment.handleRemoveFile fname settled) w
  = run (Attachment.handleRemoveFile_settle fname settled)
      (withCalls (calls w ++ [OnDeleteFile fname]) w).
Proof. reflexivity. Qed.

(** The settled half of a removal, from whatever world it resumes in. *)
Lemma remove_settle (fname : jsstring) (settled : Settled unit) w :
  run (Attachment.handleRemoveFile_settle fname settled) w
  = match settled with
    | Fulfilled _ =>
        withUploadedFiles
          (filter (fun f => negb (strictEq (name f) fname))
                  (uploadedFiles w)) w
    | Rejected error =>
        withUploadStatus (lit "Error removing file: " ++ message error)
          (withCalls
             (calls w ++ [ConsoleError (lit "Failed to remove file:") error])
             w)
    end.
Proof. destruct settled; reflexivity. Qed.

Lemma kept_iff (fname : jsstring) (l : list UploadedFile) (f : UploadedFile) :
  In f (filter (fun f => negb (strictEq (name f) fname)) l)
  <-> In f l /\ name f <> fname.
Proof.
  rewrite filter_In, negb_true_iff, strictEq_false. reflexivity.
Qed.

(** Where at most the first match bears the name, dropping every match and
    dropping the first one are the same. *)
Lemma filter_is_removeFirst_when_unique (fname : jsstring)
    (l : list UploadedFile) :
  NoDup (map name l) ->
  filter (fun f => negb (strictEq (name f) fname)) l
  = removeFirstNamed fname l.
Proof.
  induction l as [|f l IH]; intros Hnodup; simpl; [reflexivity |].
  inversion Hnodup as [|? ? Hnot Hrest]; subst.
  destruct (strictEq (name f) fname) eqn:E; simpl.
  - apply strictEq_spec in E. subst fname.
    clear IH Hrest Hnodup. induction l as [|g l IHl]; simpl; [reflexivity |].
    destruct (strictEq (name g) (name f)) eqn:E'.
    + exfalso. apply strictEq_spec in E'. apply Hnot. left. exact E'.
    + simpl. f_equal. apply IHl. intros Hin. apply Hnot. right. exact Hin.
  - f_equal. apply IH. exact Hrest.
Qed.

(** C3, as claimed, fails: with two entries named [a.pdf], a successful
    removal of [a.pdf] drops both, where removing only the first would leave
    the second. *)
Lemma remove_drops_later_duplicates :
  uploadedFiles
    (run (Attachment.handleRemoveFile (lit "a.pdf") (Fulfilled tt))
         twiceUploaded)
  = []
  /\ removeFirstNamed (lit "a.pdf") (uploadedFiles twiceUploaded)
     = [mkUploadedFile (lit "a.pdf") 2000]
  /\ uploadedFiles
       (run (Attachment.handleRemoveFile (lit "a.pdf") (Fulfilled tt))
            twiceUploaded)
     <> removeFirstNamed (lit "a.pdf") (uploadedFiles twiceUploaded).
Proof.
  split; [reflexivity | split; [reflexivity |]].
  vm_compute. discriminate.
Qed.

(** C3, amended: on success [remove(name)] drops every entry whose name
    equals the given filename, later duplicates included, and keeps the
    other entries in their order, with the status untouched; on failure it
    keeps the attachments as they were and sets the status to
    [Error removing file: ] followed by the error's message, a non-empty
    string. *)
Theorem remove_drops_every_entry_of_that_name :
  forall (fname : jsstring) (settled : Settled unit) (w : World),
    let w' := run (Attachment.handleRemoveFile fname settled) w in
    match settled with
    | Fulfilled _ =>
        uploadedFiles w'
        = filter (fun f => negb (strictEq (name f) fname)) (uploadedFiles w)
        /\ (forall f : UploadedFile,
              In f (uploadedFiles w')
              <-> In f (uploadedFiles w) /\ name f <> fname)
        /\ uploadStatus w' = uploadStatus w
        /\ calls w' = calls w ++ [OnDeleteFile fname]
    | Rejected error =>
        uploadedFiles w' = uploadedFiles w
        /\ uploadStatus w' = lit "Error removing file: " ++ message error
        /\ uploadStatus w' <> []
    end.
Proof.
  intros fname settled w w'. subst w'.
  rewrite run_handleRemoveFile, remove_settle.
  destruct settled as [[]|error]; cbn [uploadedFiles uploadStatus calls
    withUploadedFiles withUploadStatus withCalls].
  - split; [reflexivity | split; [| split; reflexivity]].
    intros f. apply kept_iff.
  - split; [reflexivity | split; [reflexivity | discriminate]].
Qed.

(* ===================================================================== *)
(** ** Stage rendering *)
(* ===================================================================== *)

Section RenderFacts.
Context `{Payloads}.

Lemma in_when (c : bool) (e x : Node) : In x (when c e) -> x = e.
Proof.
  destruct c; simpl; [intros [E | []]; symmetry; exact E | intros []].
Qed.

Lemma in_whenSome {A} (v : option A) (f : A -> Node) (x : Node) :
  In x (whenSome v f) -> exists a, v = Some a /\ x = f a.
Proof.
  destruct v as [a|]; simpl; [| intros []].
  intros [E | []]. exists a. split; [reflexivity | symmetry; exact E].
Qed.

(** What the stage-3 part renders, case by case; the same in both
    versions up to the spinner's caption. *)
Lemma renderStage3_cases (msg : Message) :
  Part000.renderStage3 msg
  = match stage3 msg with
    | Some d =>
        if loadingFlag loading_stage3 msg && negb (truthy (response d))
        then [StageLoading (lit "Running Stage 3: Final synthesis...");
              Stage3 d]
        else [Stage3 d]
    | None =>
        if loadingFlag loading_stage3 msg
        then [StageLoading (lit "Running Stage 3: Final synthesis...")]
        else []
    end.
Proof.
  unfold Part000.renderStage3, stage3Response.
  destruct (stage3 msg) as [d|];
    destruct (loadingFlag loading_stage3 msg); simpl;
    try destruct (truthy (response d)); reflexivity.
Qed.

Lemma renderStage3_cases_jsx (msg : Message) :
  ChatInterfaceJsx.renderStage3 msg
  = match stage3 msg with
    | Some d =>
        if loadingFlag loading_stage3 msg && negb (truthy (response d))
        then [StageLoading (lit "Synthesizing final answer..."); Stage3 d]
        else [Stage3 d]
    | None =>
        if loadingFlag loading_stage3 msg
        then [StageLoading (lit "Synthesizing final answer...")]
        else []
    end.
Proof.
  unfold ChatInterfaceJsx.renderStage3, stage3Response.
  destruct (stage3 msg) as [d|];
    destruct (loadingFlag loading_stage3 msg); simpl;
    try destruct (truthy (response d)); reflexivity.
Qed.

(** C2, amended: for every message whose stage3 data is present with a
    non-empty response, the stage-3 part renders the [Stage3] view and no
    spinner, whatever the loading flags are, so in particular when
    [loading.stage3] is true. Both versions of the component. *)
Theorem stage3_response_suppresses_spinner :
  forall (msg : Message) (d : Stage3Data),
    stage3 msg = Some d ->
    truthy (response d) = true ->
    Part000.renderStage3 msg = [Stage3 d]
    /\ showsStage3 (Part000.renderStage3 msg) = true
    /\ showsPending (Part000.renderStage3 msg) = false
    /\ ChatInterfaceJsx.renderStage3 msg = [Stage3 d]
    /\ showsStage3 (ChatInterfaceJsx.renderStage3 msg) = true
    /\ showsPending (ChatInterfaceJsx.renderStage3 msg) = false.
Proof.
  intros msg d Hstage3 Hresponse.
  rewrite renderStage3_cases, renderStage3_cases_jsx, Hstage3, Hresponse.
  rewrite andb_false_r. repeat split.
Qed.

(** The stage-2 view in the stage-2 part is the one built from the
    message's own [stage2] and [metadata]. *)
Lemma stage2_in_renderStage2 (msg : Message) r l a :
  In (Stage2 r l a) (Part000.renderStage2 msg) ->
  stage2 msg = Some r
  /\ l = metadataLabelToModel msg
  /\ a = metadataAggregateRankings msg.
Proof.
  unfold Part000.renderStage2. rewrite in_app_iff.
  intros [Hin | Hin].
  - apply in_when in Hin. discriminate.
  - apply in_whenSome in Hin. destruct Hin as (r' & Hr' & E).
    injection E as -> -> ->. auto.
Qed.

Lemma no_stage2_in_renderStage1 (msg : Message) r l a :
  ~ In (Stage2 r l a) (Part000.renderStage1 msg).
Proof.
  unfold Part000.renderStage1. rewrite in_app_iff.
  intros [Hin | Hin].
  - apply in_when in Hin. discriminate.
  - apply in_whenSome in Hin. destruct Hin as (? & _ & E). discriminate.
Qed.

Lemma no_stage2_in_renderStage3 (msg : Message) r l a :
  ~ In (Stage2 r l a) (Part000.renderStage3 msg).
Proof.
  unfold Part000.renderStage3. rewrite in_app_iff.
  intros [Hin | Hin].
  - apply in_when in Hin. discriminate.
  - apply in_whenSome in Hin. destruct Hin as (? & _ & E). discriminate.
Qed.

(** C7: in the rendering of a conversation, an assistant message with
    stage2 data renders a [Stage2] view that receives the message's stage2
    data as rankings and, as label-to-model mapping and aggregate
    rankings, the [label_to_model] and [aggregate_rankings] of that same
    message's [metadata] (undefined when the metadata or the field is
    missing); no other [Stage2] view is among that message's elements.
    This is the version of [part_000]. *)
Theorem stage2_view_joins_metadata_of_same_message :
  forall (messages : list Message) (i : nat) (msg : Message)
         (rankings : Stage2Data),
    nth_error messages i = Some msg ->
    strictEq (role msg) (lit "user") = false ->
    stage2 msg = Some rankings ->
    exists children : list Node,
      nth_error (Part000.renderMessages messages) i
      = Some (AssistantMessage children)
      /\ In (Stage2 rankings
                    (match metadata msg with
                     | Some m => label_to_model m
                     | None => None
                     end)
                    (match metadata msg with
                     | Some m => aggregate_rankings m
                     | None => None
                     end))
            children
      /\ (forall r l a,
            In (Stage2 r l a) children ->
            r = rankings
            /\ l = metadataLabelToModel msg
            /\ a = metadataAggregateRankings msg).
Proof.
  intros messages i msg rankings Hnth Hrole Hstage2.
  exists (MessageLabel (lit "LLM Council")
          :: Part000.renderStage1 msg ++ Part000.renderStage2 msg
             ++ Part000.renderStage3 msg).
  split; [| split].
  - unfold Part000.renderMessages.
    rewrite nth_error_map, Hnth. simpl.
    unfold Part000.renderMessage. rewrite Hrole. reflexivity.
  - right. rewrite !in_app_iff. right. left.
    unfold Part000.renderStage2. rewrite Hstage2, in_app_iff.
    right. left. reflexivity.
  - intros r l a [Hin | Hin]; [discriminate |].
    rewrite !in_app_iff in Hin. destruct Hin as [Hin | [Hin | Hin]].
    + exfalso. exact (no_stage2_in_renderStage1 _ _ _ _ Hin).
    + apply stage2_in_renderStage2 in Hin.
      destruct Hin as (Hr & Hl & Ha). rewrite Hstage2 in Hr.
      injection Hr as <-. auto.
    + exfalso. exact (no_stage2_in_renderStage3 _ _ _ _ Hin).
Qed.

(** The version of [ChatInterface.jsx] renders no [Stage2] view at all. *)
Lemma jsx_renders_no_stage2 (msg : Message) r l a children :
  ChatInterfaceJsx.renderMessage msg = AssistantMessage children ->
  ~ In (Stage2 r l a) children.
Proof.
  unfold ChatInterfaceJsx.renderMessage.
  destruct (strictEq (role msg) (lit "user")); [discriminate |].
  intros E. injection E as <-.
  unfold ChatInterfaceJsx.renderStage1, ChatInterfaceJsx.renderStage3.
  rewrite !in_app_iff.
  intros [[Hin | Hin] | [Hin | Hin]];
    try (apply in_when in Hin; discriminate);
    apply in_whenSome in Hin; destruct Hin as (? & _ & E); discriminate.
Qed.

End RenderFacts.

(** C2, as claimed, fails: the message [emptyAnswer] has
    [loading.stage3] true and stage3 data present, and its stage-3 part
    renders the spinner next to the [Stage3] view, because the data's
    response is empty. Both versions of the component. *)
Lemma stage3_spinner_beside_empty_response :
  loadingFlag loading_stage3 emptyAnswer = true
  /\ stage3 emptyAnswer = Some (mkStage3Data [] (lit "model-a"))
  /\ showsPending (Part000.renderStage3 emptyAnswer) = true
  /\ showsPending (ChatInterfaceJsx.renderStage3 emptyAnswer) = true.
Proof. repeat split. Qed.

(** The amended C2 at [lateFlagAnswer], whose [loading.stage3] is true. *)
Lemma stage3_response_suppresses_spinner_witness :
  (loadingFlag loading_stage3 lateFlagAnswer = true
   /\ stage3 lateFlagAnswer = Some paris
   /\ truthy (response paris) = true)
  /\ Part000.renderStage3 lateFlagAnswer = [Stage3 paris]
  /\ showsPending (Part000.renderStage3 lateFlagAnswer) = false
  /\ showsPending (ChatInterfaceJsx.renderStage3 lateFlagAnswer) = false.
Proof.
  split; [repeat split |].
  destruct (@stage3_response_suppresses_spinner textPayloads
              lateFlagAnswer paris eq_refl eq_refl)
    as (Hrender & _ & Hpending & _ & _ & Hpending').
  exact (conj Hrender (conj Hpending Hpending')).
Defined.

(** C7 at the conversation made of [rankedAnswer] alone. *)
Lemma stage2_view_joins_metadata_witness :
  (nth_error [rankedAnswer] 0 = Some rankedAnswer
   /\ strictEq (role rankedAnswer) (lit "user") = false
   /\ stage2 rankedAnswer = Some [(lit "model-a", lit "1. Response A")])
  /\ exists children : list Node,
       nth_error (Part000.renderMessages [rankedAnswer]) 0
       = Some (AssistantMessage children)
       /\ In (Stage2 [(lit "model-a", lit "1. Response A")]
                     (Some [(lit "Response A", lit "model-a")])
                     (Some [lit "model-a"]))
             children.
Proof.
  split; [repeat split |].
  destruct (@stage2_view_joins_metadata_of_same_message textPayloads
              [rankedAnswer] 0 rankedAnswer
              [(lit "model-a", lit "1. Response A")]
              eq_refl eq_refl eq_refl)
    as (children & Hnth & Hin & _).
  exists children. exact (conj Hnth Hin).
Defined.

(* ===================================================================== *)
(** ** More on submission *)
(* ===================================================================== *)

Lemma blank_or_visible (s : jsstring) : Forall blank s \/ Exists visible s.
Proof.
  induction s as [|c s [IH | IH]].
  - left. constructor.
  - destruct (isWhiteSpace c) eqn:W.
    + left. constructor; assumption.
    + right. apply Exists_cons_hd. exact W.
  - right. apply Exists_cons_tl. exact IH.
Qed.

Lemma blank_not_visible (s : jsstring) :
  Forall blank s -> Exists visible s -> False.
Proof.
  intros Hall Hex. apply Exists_exists in Hex. destruct Hex as (c & Hin & Hc).
  rewrite Forall_forall in Hall. specialize (Hall c Hin).
  unfold blank, visible in *. congruence.
Qed.

(** The trimmed draft is non-empty exactly when the draft holds a code unit
    that is not white space. *)
Lemma trim_truthy_iff (s : jsstring) :
  truthy (trim s) = true <-> Exists visible s.
Proof.
  split.
  - intros T. destruct (blank_or_visible s) as [Hall | Hex]; [| exact Hex].
    apply trim_empty_iff in Hall. congruence.
  - intros Hex. destruct (truthy (trim s)) eqn:T; [reflexivity |].
    apply trim_empty_iff in T. exfalso. exact (blank_not_visible s T Hex).
Qed.

Lemma trimStart_split (s : jsstring) :
  exists pre, s = pre ++ trimStart s /\ Forall blank pre.
Proof.
  induction s as [|c s (pre & E & Hpre)]; simpl.
  - exists []. split; [reflexivity | constructor].
  - destruct (isWhiteSpace c) eqn:W.
    + exists (c :: pre). split.
      * simpl. f_equal. exact E.
      * constructor; assumption.
    + exists []. split; [reflexivity | constructor].
Qed.

Lemma trimEnd_split (s : jsstring) :
  exists post, s = trimEnd s ++ post /\ Forall blank post.
Proof.
  destruct (trimStart_split (rev s)) as (pre & E & Hpre).
  exists (rev pre). split.
  - unfold trimEnd. rewrite <- rev_app_distr, <- E, rev_involutive.
    reflexivity.
  - apply Forall_rev. exact Hpre.
Qed.

(** A draft is its trimmed text between two runs of white space. *)
Lemma trim_split (s : jsstring) :
  exists pre post,
    s = pre ++ trim s ++ post /\ Forall blank pre /\ Forall blank post.
Proof.
  destruct (trimStart_split s) as (pre & E & Hpre).
  destruct (trimEnd_split (trimStart s)) as (post & E' & Hpost).
  exists pre, post. unfold trim. rewrite <- E', <- E. auto.
Qed.

(** X1: [submit()] hands the draft to the send collaborator exactly when
    the draft holds a code unit that is not white space and [isLoading] is
    false; it sends nothing exactly when the draft is white space only
    (the empty draft included) or [isLoading] is true. *)
Theorem submit_sends_iff_draft_has_visible_text :
  forall (isLoading : bool) (w : World),
    (calls (run (Part000.handleSubmit isLoading) w)
     = calls w ++ [OnSendMessage (input w)]
     <-> Exists visible (input w) /\ isLoading = false)
    /\ (calls (run (Part000.handleSubmit isLoading) w) = calls w
        <-> Forall blank (input w) \/ isLoading = true).
Proof.
  intros isLoading w. rewrite run_handleSubmit_part000.
  destruct (truthy (trim (input w))) eqn:T.
  - pose proof (proj1 (trim_truthy_iff _) T) as Hex.
    destruct isLoading; cbn [andb negb calls withInput withCalls
      withDefaultPrevented]; split; split.
    + intros E. exfalso. symmetry in E. exact (snoc_neq _ _ E).
    + intros [_ E]. discriminate.
    + auto.
    + reflexivity.
    + auto.
    + reflexivity.
    + intros E. exfalso. exact (snoc_neq _ _ E).
    + intros [Hall | E]; [| discriminate].
      exfalso. exact (blank_not_visible _ Hall Hex).
  - pose proof (proj1 (trim_empty_iff _) T) as Hall.
    rewrite andb_false_l.
    cbn [calls withDefaultPrevented]. split; split.
    + intros E. exfalso. symmetry in E. exact (snoc_neq _ _ E).
    + intros [Hex _]. exfalso. exact (blank_not_visible _ Hall Hex).
    + auto.
    + reflexivity.
Qed.

(** X2: the text handed to the send collaborator is the trimmed draft with
    nothing but white space before and after it. *)
Theorem sent_text_is_trimmed_text_in_white_space :
  forall (isLoading : bool) (w : World) (text : jsstring),
    calls (run (Part000.handleSubmit isLoading) w)
    = calls w ++ [OnSendMessage text] ->
    exists before after,
      text = before ++ trim (input w) ++ after
      /\ Forall blank before /\ Forall blank after
      /\ truthy (trim (input w)) = true.
Proof.
  intros isLoading w text. rewrite run_handleSubmit_part000.
  destruct (truthy (trim (input w))) eqn:T, isLoading;
    cbn [andb negb calls withInput withCalls withDefaultPrevented];
    intros E; try (exfalso; symmetry in E; exact (snoc_neq _ _ E)).
  apply app_inv_head in E. injection E as <-.
  destruct (trim_split (input w)) as (pre & post & Hs & Hpre & Hpost).
  exists pre, post. auto.
Qed.

(** X3: submitting again under the same [isLoading], with nothing typed in
    between, changes nothing more; and two submissions in a row, whatever
    [isLoading] is at each, send the draft at most once. *)
Theorem repeated_submit_sends_once :
  forall (first second : bool) (w : World),
    run (Part000.handleSubmit first) (run (Part000.handleSubmit first) w)
    = run (Part000.handleSubmit first) w
    /\ (calls (run (Part000.handleSubmit second)
                 (run (Part000.handleSubmit first) w))
        = calls w
        \/ calls (run (Part000.handleSubmit second)
                    (run (Part000.handleSubmit first) w))
           = calls w ++ [OnSendMessage (input w)]).
Proof.
  intros first second w.
  rewrite !run_handleSubmit_part000.
  destruct (truthy (trim (input w))) eqn:T, first, second;
    cbn [andb negb input calls withInput withCalls withDefaultPrevented];
    try rewrite T; cbn [andb negb input calls withInput withCalls
      withDefaultPrevented truthy trim trimEnd trimStart rev app];
    auto.
Qed.

(** X4: a submission or a key press leaves the attachments, the upload
    status and the file picker as they were: attachments are not cleared
    when a message is sent. *)
Theorem submit_keeps_attachments :
  forall (isLoading : bool) (e : KeyboardEvent) (w : World),
    let submitted := run (Part000.handleSubmit isLoading) w in
    let pressed := run (Part000.handleKeyDown isLoading e) w in
    uploadedFiles submitted = uploadedFiles w
    /\ uploadStatus submitted = uploadStatus w
    /\ fileInput submitted = fileInput w
    /\ uploadedFiles pressed = uploadedFiles w
    /\ uploadStatus pressed = uploadStatus w
    /\ fileInput pressed = fileInput w.
Proof.
  intros isLoading e w submitted pressed. subst submitted pressed.
  unfold Part000.handleKeyDown.
  rewrite run_if, run_bind, run_preventDefault, run_ret.
  rewrite handleSubmit_on_cancelled_part000, run_handleSubmit_part000.
  destruct (strictEq (key e) (lit "Enter") && negb (shiftKey e)),
    (truthy (trim (input w)) && negb isLoading); repeat split.
Qed.

(** X5: [ChatInterface.jsx] submits, reacts to keys and disables its send
    button as [part_000] does with [isLoading] false. *)
Theorem jsx_is_part000_when_not_loading :
  forall (e : KeyboardEvent) (w : World),
    run ChatInterfaceJsx.handleSubmit w = run (Part000.handleSubmit false) w
    /\ run (ChatInterfaceJsx.handleKeyDown e) w
       = run (Part000.handleKeyDown false e) w
    /\ ChatInterfaceJsx.sendDisabled (input w)
       = Part000.sendDisabled (input w) false.
Proof.
  intros e w.
  assert (Hsubmit : run ChatInterfaceJsx.handleSubmit w
                    = run (Part000.handleSubmit false) w).
  { rewrite run_handleSubmit_jsx, run_handleSubmit_part000.
    rewrite andb_true_r. reflexivity. }
  split; [exact Hsubmit | split].
  - unfold ChatInterfaceJsx.handleKeyDown, Part000.handleKeyDown.
    destruct (strictEq (key e) (lit "Enter") && negb (shiftKey e));
      [| reflexivity].
    rewrite !run_bind, !run_preventDefault.
    rewrite handleSubmit_on_cancelled_jsx, handleSubmit_on_cancelled_part000.
    exact Hsubmit.
  - unfold ChatInterfaceJsx.sendDisabled, Part000.sendDisabled.
    rewrite orb_false_r. reflexivity.
Qed.

(** X2 at the draft [" hi"]. *)
Lemma sent_text_is_trimmed_text_witness :
  calls (run (Part000.handleSubmit false) draftWorld)
  = calls draftWorld ++ [OnSendMessage (lit " hi")]
  /\ exists before after,
       lit " hi" = before ++ trim (input draftWorld) ++ after
       /\ Forall blank before /\ Forall blank after.
Proof.
  split; [reflexivity |].
  destruct (sent_text_is_trimmed_text_in_white_space false draftWorld
              (lit " hi") eq_refl)
    as (before & after & Htext & Hbefore & Hafter & _).
  exists before, after. auto.
Defined.

(* ===================================================================== *)
(** ** More on attachments *)
(* ===================================================================== *)

Lemma run_handleFileChange_settle (settled : Settled UploadResult)
    (now : Z) (w : World) :
  run (Attachment.handleFileChange_settle settled now) w
  = withFileInput (match fileInput w with
                   | Some _ => Some []
                   | None => None
                   end)
      match settled with
      | Fulfilled result =>
          withUploadedFiles
            (uploadedFiles w ++ [mkUploadedFile (filename result) now])
            (withUploadStatus [] w)
      | Rejected error =>
          withUploadStatus (lit "Error: " ++ message error) w
      end.
Proof. destruct settled; reflexivity. Qed.

(** X6: whatever the file event and however the upload settles,
    [handleFileChange] keeps the draft, keeps the attachments held as a
    prefix and adds at most one entry after them, and calls no collaborator
    other than the upload one. *)
Theorem upload_only_appends :
  forall (e : ChangeEvent) (settled : Settled UploadResult) (now : Z)
         (w : World),
    let w' := run (Attachment.handleFileChange e settled now) w in
    input w' = input w
    /\ (uploadedFiles w' = uploadedFiles w
        \/ exists entry, uploadedFiles w' = uploadedFiles w ++ [entry])
    /\ (calls w' = calls w
        \/ exists file, calls w' = calls w ++ [OnUploadFile file]).
Proof.
  intros [[[|file others]|]] settled now w w'; subst w';
    try (repeat split; left; reflexivity).
  rewrite run_handleFileChange, run_handleFileChange_settle.
  destruct settled as [result | error]; repeat split.
  - right. eexists. reflexivity.
  - right. eexists. reflexivity.
  - left. reflexivity.
  - right. eexists. reflexivity.
Qed.

(** X7: once an upload has settled, either way and from whatever world it
    resumes in, the status no longer reads [Uploading...], and the file
    picker, if mounted, has its selection cleared, so that the same file
    can be chosen again. *)
Theorem settled_upload_clears_in_flight_status :
  forall (settled : Settled UploadResult) (now : Z) (w : World),
    let w' := run (Attachment.handleFileChange_settle settled now) w in
    uploadStatus w' <> lit "Uploading..."
    /\ fileInput w' = match fileInput w with
                      | Some _ => Some []
                      | None => None
                      end.
Proof.
  intros settled now w w'. subst w'.
  rewrite run_handleFileChange_settle.
  destruct settled; split; try reflexivity; discriminate.
Qed.

Lemma filter_keeps_all (fname : jsstring) (l : list UploadedFile) :
  Forall (fun f => name f <> fname) l ->
  filter (fun f => negb (strictEq (name f) fname)) l = l.
Proof.
  induction 1 as [|f l Hf _ IH]; simpl; [reflexivity |].
  apply strictEq_false in Hf. rewrite Hf. simpl. f_equal. exact IH.
Qed.

Lemma filter_drops_named (fname : jsstring) (l : list UploadedFile) :
  Forall (fun f => name f <> fname)
         (filter (fun f => negb (strictEq (name f) fname)) l).
Proof.
  apply Forall_forall. intros f Hin. apply kept_iff in Hin. tauto.
Qed.

Lemma uploadedFiles_removed (fname : jsstring) (w : World) :
  uploadedFiles (removed fname (Fulfilled tt) w)
  = filter (fun f => negb (strictEq (name f) fname)) (uploadedFiles w).
Proof. reflexivity. Qed.

(** X8: a successful removal of a name that no attachment bears leaves
    the attachments as they are; the delete collaborator is called all
    the same. *)
Theorem remove_of_absent_name_keeps_attachments :
  forall (fname : jsstring) (w : World),
    Forall (fun f => name f <> fname) (uploadedFiles w) ->
    uploadedFiles (removed fname (Fulfilled tt) w) = uploadedFiles w
    /\ calls (removed fname (Fulfilled tt) w)
       = calls w ++ [OnDeleteFile fname].
Proof.
  intros fname w Habsent. split; [| reflexivity].
  rewrite uploadedFiles_removed. apply filter_keeps_all. exact Habsent.
Qed.

Lemma remove_of_absent_name_witness :
  Forall (fun f => name f <> lit "b.txt") (uploadedFiles twiceUploaded)
  /\ uploadedFiles (removed (lit "b.txt") (Fulfilled tt) twiceUploaded)
     = uploadedFiles twiceUploaded.
Proof.
  assert (Habsent : Forall (fun f => name f <> lit "b.txt")
                           (uploadedFiles twiceUploaded)).
  { repeat constructor; discriminate. }
  split; [exact Habsent |].
  exact (proj1 (remove_of_absent_name_keeps_attachments
                  (lit "b.txt") twiceUploaded Habsent)).
Defined.

(** X9: on the attachments, removing a name a second time changes
    nothing more, and removing two names gives the same list in either
    order. *)
Theorem removals_repeat_and_commute :
  forall (a b : jsstring) (w : World),
    uploadedFiles (removed a (Fulfilled tt) (removed a (Fulfilled tt) w))
    = uploadedFiles (removed a (Fulfilled tt) w)
    /\ uploadedFiles (removed a (Fulfilled tt) (removed b (Fulfilled tt) w))
       = uploadedFiles (removed b (Fulfilled tt) (removed a (Fulfilled tt) w)).
Proof.
  intros a b w. rewrite !uploadedFiles_removed. split.
  - apply filter_keeps_all, filter_drops_named.
  - induction (uploadedFiles w) as [|f l IH]; simpl; [reflexivity |].
    destruct (strictEq (name f) a) eqn:Ea, (strictEq (name f) b) eqn:Eb;
      simpl; rewrite ?Ea, ?Eb; simpl; rewrite IH; reflexivity.
Qed.

(** X10: uploading a file under a name that no attachment bears and then
    removing that name, both succeeding, gives back the attachments held
    before. *)
Theorem upload_then_remove_restores_attachments :
  forall (file : File) (result : UploadResult) (now : Z) (w : World),
    Forall (fun f => name f <> filename result) (uploadedFiles w) ->
    uploadedFiles
      (removed (filename result) (Fulfilled tt)
         (uploaded file (Fulfilled result) now w))
    = uploadedFiles w.
Proof.
  intros file result now w Hnew.
  rewrite uploadedFiles_removed. unfold uploaded.
  rewrite run_handleFileChange, run_handleFileChange_settle.
  cbn [uploadedFiles withFileInput withUploadedFiles].
  rewrite filter_app. simpl.
  assert (E : strictEq (filename result) (filename result) = true)
    by (apply strictEq_spec; reflexivity).
  rewrite E. simpl. rewrite app_nil_r.
  apply filter_keeps_all. exact Hnew.
Qed.

Lemma upload_then_remove_witness :
  Forall (fun f => name f <> lit "b.txt") (uploadedFiles twiceUploaded)
  /\ uploadedFiles
       (removed (lit "b.txt") (Fulfilled tt)
          (uploaded txtB (Fulfilled (mkUploadResult (lit "b.txt"))) 3000
             twiceUploaded))
     = uploadedFiles twiceUploaded.
Proof.
  assert (Hnew : Forall (fun f => name f <> lit "b.txt")
                        (uploadedFiles twiceUploaded)).
  { repeat constructor; discriminate. }
  split; [exact Hnew |].
  exact (upload_then_remove_restores_attachments
           txtB (mkUploadResult (lit "b.txt")) 3000 twiceUploaded Hnew).
Defined.

Lemma shownChips_map (l : list UploadedFile) :
  shownChips l
  = map (fun file => Attachment.mkFileChip (id file) (name file) (name file))
        l.
Proof. destruct l; reflexivity. Qed.


Lemma NoDup_map_filter {A B} (g : A -> B) (p : A -> bool) (l : list A) :
  NoDup (map g l) -> NoDup (map g (filter p l)).
Proof.
  induction l as [|x l IH]; simpl; intros Hnd; [constructor |].
  inversion Hnd as [|? ? Hnot Hrest]; subst.
  destruct (p x); simpl; [| apply IH; exact Hrest].
  constructor; [| apply IH; exact Hrest].
  intros Hin. apply Hnot.
  apply in_map_iff in Hin. destruct Hin as (y & Hy & Hin).
  apply filter_In in Hin. apply in_map_iff. exists y. tauto.
Qed.



(* ===================================================================== *)
(** ** Sessions *)
(* ===================================================================== *)

Lemma replay_snoc (events : list SessionEvent) (ev : SessionEvent) w :
  replay (events ++ [ev]) w = step (replay events w) ev.
Proof. unfold replay. rewrite fold_left_app. reflexivity. Qed.

Lemma replay_cons (ev : SessionEvent) (events : list SessionEvent) w :
  replay (ev :: events) w = replay events (step w ev).
Proof. reflexivity. Qed.

(** A key press does nothing or what a submission does. *)
Lemma keydown_cases (isLoading : bool) (e : KeyboardEvent) w :
  run (Part000.handleKeyDown isLoading e) w = w
  \/ run (Part000.handleKeyDown isLoading e) w
     = run (Part000.handleSubmit isLoading) w.
Proof.
  unfold Part000.handleKeyDown.
  destruct (strictEq (key e) (lit "Enter") && negb (shiftKey e)).
  - right. rewrite run_bind, run_preventDefault.
    apply handleSubmit_on_cancelled_part000.
  - left. reflexivity.
Qed.

(** What a submission does to the draft and the log. *)
Lemma submit_cases (isLoading : bool) w :
  let w' := run (Part000.handleSubmit isLoading) w in
  uploadedFiles w' = uploadedFiles w
  /\ ((input w' = input w /\ calls w' = calls w)
      \/ (input w' = []
          /\ calls w' = calls w ++ [OnSendMessage (input w)]
          /\ Exists visible (input w))).
Proof.
  cbv zeta. rewrite run_handleSubmit_part000.
  destruct (truthy (trim (input w))) eqn:T, isLoading;
    cbn [andb negb]; split; try reflexivity; try (left; split; reflexivity).
  right. repeat split. apply trim_truthy_iff. exact T.
Qed.

(** What one event does to the attachments. *)
Lemma step_uploadedFiles (w : World) (ev : SessionEvent) :
  uploadedFiles (step w ev)
  = match ev with
    | UploadSettled (Fulfilled result) now =>
        uploadedFiles w ++ [mkUploadedFile (filename result) now]
    | RemoveSettled fname (Fulfilled _) =>
        filter (fun f => negb (strictEq (name f) fname)) (uploadedFiles w)
    | _ => uploadedFiles w
    end.
Proof.
  destruct ev as [value | isLoading | isLoading e | e | settled now
                 | fname | fname settled]; cbn [step].
  - reflexivity.
  - apply (submit_cases isLoading (withDefaultPrevented false w)).
  - destruct (keydown_cases isLoading e (withDefaultPrevented false w))
      as [-> | ->]; [reflexivity |].
    apply (submit_cases isLoading (withDefaultPrevented false w)).
  - destruct e as [[[|file others]|]]; reflexivity.
  - destruct settled; reflexivity.
  - reflexivity.
  - destruct settled; reflexivity.
Qed.

Lemma NoDup_snoc_later (ids : list Z) (now : Z) :
  NoDup ids -> (forall i, In i ids -> (i < now)%Z) -> NoDup (ids ++ [now]).
Proof.
  induction ids as [|x l IH]; simpl; intros Hnd Hlt.
  - constructor; [intros [] | constructor].
  - inversion Hnd as [|? ? Hnot Hrest]; subst. constructor.
    + rewrite in_app_iff. simpl. intros [Hin | [Heq | []]].
      * contradiction.
      * specialize (Hlt x (or_introl eq_refl)). lia.
    + apply IH; [exact Hrest |]. intros i Hi. apply Hlt. right. exact Hi.
Qed.

Lemma replay_keeps_ids_distinct (events : list SessionEvent) :
  forall (after : Z) (w : World),
    stampsAdvance after events ->
    NoDup (map id (uploadedFiles w)) ->
    (forall f, In f (uploadedFiles w) -> (id f <= after)%Z) ->
    NoDup (map id (uploadedFiles (replay events w))).
Proof.
  induction events as [|ev events IH]; intros after w Hadv Hnd Hbound;
    [exact Hnd |].
  rewrite replay_cons.
  destruct ev as [value | isLoading | isLoading e | e | [result | error] now
                 | fname | fname [[] | error]];
    cbn [stampsAdvance] in Hadv;
    try (apply (IH after); [exact Hadv | |];
         rewrite step_uploadedFiles; assumption).
  - destruct Hadv as [Hlater Hadv].
    apply (IH now); [exact Hadv | |]; rewrite step_uploadedFiles.
    + rewrite map_app. apply NoDup_snoc_later; [exact Hnd |].
      intros i Hi. apply in_map_iff in Hi. destruct Hi as (f & <- & Hf).
      specialize (Hbound f Hf). cbn [id]. lia.
    + intros f Hf. apply in_app_iff in Hf. destruct Hf as [Hf | [<- | []]].
      * specialize (Hbound f Hf). lia.
      * simpl. lia.
  - apply (IH after); [exact Hadv | |]; rewrite step_uploadedFiles.
    + apply NoDup_map_filter. exact Hnd.
    + intros f Hf. apply filter_In in Hf. apply Hbound. tauto.
Qed.

(** X12: in a session whose successful uploads were each stamped later
    than the one before, the ids of the attachments, and so the React keys
    of the chips on screen, are pairwise distinct at the end, whatever
    else happened in between (typing, sending, failed uploads, removals,
    overlapping uploads). *)
Theorem advancing_clock_gives_distinct_keys :
  forall (events : list SessionEvent) (after : Z),
    stampsAdvance after events ->
    NoDup (map id (uploadedFiles (replay events initialWorld)))
    /\ NoDup (map Attachment.chipKey
                (shownChips (uploadedFiles (replay events initialWorld)))).
Proof.
  intros events after Hadv.
  assert (Hids : NoDup (map id
                          (uploadedFiles (replay events initialWorld)))).
  { apply (replay_keeps_ids_distinct events after); [exact Hadv | |].
    - constructor.
    - intros f []. }
  split; [exact Hids |].
  rewrite shownChips_map, map_map. exact Hids.
Qed.

Lemma advancing_clock_witness :
  stampsAdvance 0 busySession
  /\ NoDup (map Attachment.chipKey
              (shownChips (uploadedFiles (replay busySession initialWorld)))).
Proof.
  assert (Hadv : stampsAdvance 0 busySession).
  { cbn. repeat split; lia. }
  split; [exact Hadv |].
  exact (proj2 (advancing_clock_gives_distinct_keys busySession 0 Hadv)).
Defined.

(** X13: every attachment held at the end of a session comes from a
    successful upload of that session: its name is the filename the
    collaborator reported and its id the [Date.now()] read then. Nothing
    else creates an attachment. *)
Theorem attachments_come_from_fulfilled_uploads :
  forall (events : list SessionEvent) (f : UploadedFile),
    In f (uploadedFiles (replay events initialWorld)) ->
    exists (result : UploadResult) (now : Z),
      In (UploadSettled (Fulfilled result) now) events
      /\ f = mkUploadedFile (filename result) now.
Proof.
  induction events as [|ev events IH] using rev_ind; intros f Hin;
    [destruct Hin |].
  rewrite replay_snoc, step_uploadedFiles in Hin.
  assert (Hold : In f (uploadedFiles (replay events initialWorld)) ->
                 exists result now,
                   In (UploadSettled (Fulfilled result) now) (events ++ [ev])
                   /\ f = mkUploadedFile (filename result) now).
  { intros Hf. destruct (IH f Hf) as (result & now & Hev & E).
    exists result, now. split; [| exact E].
    apply in_app_iff. left. exact Hev. }
  destruct ev as [value | isLoading | isLoading e | e | [result | error] now
                 | fname | fname [[] | error]]; try (apply Hold; exact Hin).
  - apply in_app_iff in Hin. destruct Hin as [Hf | [<- | []]];
      [apply Hold; exact Hf |].
    exists result, now. split; [| reflexivity].
    apply in_app_iff. right. left. reflexivity.
  - apply filter_In in Hin. apply Hold. tauto.
Qed.

Lemma attachments_provenance_witness :
  In (mkUploadedFile (lit "b.txt") 1500)
     (uploadedFiles (replay busySession initialWorld))
  /\ exists (result : UploadResult) (now : Z),
       In (UploadSettled (Fulfilled result) now) busySession
       /\ mkUploadedFile (lit "b.txt") 1500
          = mkUploadedFile (filename result) now.
Proof.
  assert (Hin : In (mkUploadedFile (lit "b.txt") 1500)
                   (uploadedFiles (replay busySession initialWorld))).
  { left. reflexivity. }
  split; [exact Hin |].
  exact (attachments_come_from_fulfilled_uploads busySession _ Hin).
Defined.

Lemma in_snoc_other (l : list Call) (c : Call) (text : jsstring) :
  (forall t, c <> OnSendMessage t) ->
  In (OnSendMessage text) (l ++ [c]) -> In (OnSendMessage text) l.
Proof.
  intros Hother Hin. apply in_app_iff in Hin.
  destruct Hin as [Hin | [E | []]]; [exact Hin |].
  exfalso. exact (Hother text E).
Qed.

(** What one event adds to the messages sent. *)
Lemma step_sends (w : World) (ev : SessionEvent) (text : jsstring) :
  In (OnSendMessage text) (calls (step w ev)) ->
  In (OnSendMessage text) (calls w)
  \/ (text = input w /\ Exists visible text).
Proof.
  assert (Hsubmit : forall isLoading,
             In (OnSendMessage text)
                (calls (run (Part000.handleSubmit isLoading)
                            (withDefaultPrevented false w))) ->
             In (OnSendMessage text) (calls w)
             \/ (text = input w /\ Exists visible text)).
  { intros isLoading Hin.
    destruct (submit_cases isLoading (withDefaultPrevented false w))
      as (_ & [(_ & Hcalls) | (_ & Hcalls & Hvisible)]);
      rewrite Hcalls in Hin; [left; exact Hin |].
    apply in_app_iff in Hin. destruct Hin as [Hin | [E | []]];
      [left; exact Hin |].
    injection E as <-. right. split; [reflexivity | exact Hvisible]. }
  destruct ev as [value | isLoading | isLoading e | e | settled now
                 | fname | fname settled]; cbn [step].
  - intros Hin. left. exact Hin.
  - apply Hsubmit.
  - destruct (keydown_cases isLoading e (withDefaultPrevented false w))
      as [-> | ->]; [intros Hin; left; exact Hin | apply Hsubmit].
  - destruct e as [[[|file others]|]]; intros Hin; left;
      try exact Hin.
    apply (in_snoc_other _ (OnUploadFile file)); [discriminate | exact Hin].
  - rewrite run_handleFileChange_settle.
    destruct settled; intros Hin; left; exact Hin.
  - intros Hin. left.
    apply (in_snoc_other _ (OnDeleteFile fname)); [discriminate | exact Hin].
  - rewrite remove_settle. destruct settled as [[] | error];
      intros Hin; left; [exact Hin |].
    apply (in_snoc_other _ (ConsoleError (lit "Failed to remove file:") error));
      [discriminate | exact Hin].
Qed.

(** What one event does to the draft. *)
Lemma step_draft (w : World) (ev : SessionEvent) :
  input (step w ev) = input w
  \/ input (step w ev) = []
  \/ ev = InputChanged (input (step w ev)).
Proof.
  assert (Hsubmit : forall isLoading,
             input (run (Part000.handleSubmit isLoading)
                        (withDefaultPrevented false w)) = input w
             \/ input (run (Part000.handleSubmit isLoading)
                           (withDefaultPrevented false w)) = []).
  { intros isLoading.
    destruct (submit_cases isLoading (withDefaultPrevented false w))
      as (_ & [(Hinput & _) | (Hinput & _)]); auto. }
  destruct ev as [value | isLoading | isLoading e | e | settled now
                 | fname | fname settled]; cbn [step].
  - right. right. reflexivity.
  - destruct (Hsubmit isLoading); auto.
  - destruct (keydown_cases isLoading e (withDefaultPrevented false w))
      as [-> | ->]; [left; reflexivity |].
    destruct (Hsubmit isLoading); auto.
  - left. destruct e as [[[|file others]|]]; reflexivity.
  - left. destruct settled; reflexivity.
  - left. reflexivity.
  - left. destruct settled; reflexivity.
Qed.

Lemma session_drafts_and_sends (events : list SessionEvent) :
  (input (replay events initialWorld) = []
   \/ In (InputChanged (input (replay events initialWorld))) events)
  /\ (forall text,
        In (OnSendMessage text) (calls (replay events initialWorld)) ->
        In (InputChanged text) events /\ Exists visible text).
Proof.
  induction events as [|ev events [IHdraft IHsent]] using rev_ind.
  - split; [left; reflexivity | intros text []].
  - rewrite replay_snoc. split.
    + destruct (step_draft (replay events initialWorld) ev)
        as [E | [E | E]].
      * rewrite E. destruct IHdraft as [Hd | Hd]; [left; exact Hd |].
        right. apply in_app_iff. left. exact Hd.
      * left. exact E.
      * right. apply in_app_iff. right. left. exact E.
    + intros text Hin. apply step_sends in Hin.
      destruct Hin as [Hin | [-> Hvisible]].
      * destruct (IHsent text Hin) as [Htyped Hvisible].
        split; [apply in_app_iff; left; exact Htyped | exact Hvisible].
      * split; [| exact Hvisible].
        destruct IHdraft as [Hd | Hd].
        -- rewrite Hd in Hvisible. inversion Hvisible.
        -- apply in_app_iff. left. exact Hd.
Qed.

(** X14: every text handed to the send collaborator during a session is a
    value the text area held, unchanged, and holds a code unit that is not
    white space: the component never sends a blank message, nor one the
    user did not type. *)
Theorem sent_messages_were_typed_and_not_blank :
  forall (events : list SessionEvent) (text : jsstring),
    In (OnSendMessage text) (calls (replay events initialWorld)) ->
    In (InputChanged text) events /\ Exists visible text.
Proof.
  intros events. apply (proj2 (session_drafts_and_sends events)).
Qed.

Lemma sent_messages_witness :
  In (OnSendMessage (lit "summarise it"))
     (calls (replay busySession initialWorld))
  /\ In (InputChanged (lit "summarise it")) busySession
  /\ Exists visible (lit "summarise it").
Proof.
  assert (Hin : In (OnSendMessage (lit "summarise it"))
                   (calls (replay busySession initialWorld))).
  { right. right. right. left. reflexivity. }
  split; [exact Hin |].
  exact (sent_messages_were_typed_and_not_blank busySession _ Hin).
Defined.

(* ===================================================================== *)
(** ** More on rendering *)
(* ===================================================================== *)


Section ScreenFacts.
Context `{Payloads}.

Lemma showsPending_app (a b : list Node) :
  showsPending (a ++ b) = showsPending a || showsPending b.
Proof. apply existsb_app. Qed.

Lemma showsPending_when (c : bool) (text : jsstring) :
  showsPending (when c (StageLoading text)) = c.
Proof. destruct c; reflexivity. Qed.

Lemma showsPending_whenSome {A} (v : option A) (view : A -> Node) :
  (forall a, isStageLoading (view a) = false) ->
  showsPending (whenSome v view) = false.
Proof.
  intros Hview. destruct v as [a|]; simpl; [| reflexivity].
  rewrite Hview. reflexivity.
Qed.

(** X15: an assistant message shows a spinner exactly when its stage-1
    flag is set, or its stage-2 flag is set, or its stage-3 flag is set
    while stage 3 has no non-empty response. For stages 1 and 2 the data
    plays no part: spinner and data show together when the flag is still
    set. *)
Theorem assistant_spinner_iff_flags :
  forall (msg : Message) (children : list Node),
    Part000.renderMessage msg = AssistantMessage children ->
    showsPending children
    = loadingFlag loading_stage1 msg
      || loadingFlag loading_stage2 msg
      || loadingFlag loading_stage3 msg && negb (stage3Response msg).
Proof.
  intros msg children. unfold Part000.renderMessage.
  destruct (strictEq (role msg) (lit "user")); [discriminate |].
  intros E. injection E as <-.
  change (showsPending (MessageLabel (lit "LLM Council")
                        :: Part000.renderStage1 msg
                           ++ Part000.renderStage2 msg
                           ++ Part000.renderStage3 msg))
    with (showsPending (Part000.renderStage1 msg
                        ++ Part000.renderStage2 msg
                        ++ Part000.renderStage3 msg)).
  unfold Part000.renderStage1, Part000.renderStage2, Part000.renderStage3.
  rewrite !showsPending_app, !showsPending_when.
  rewrite !showsPending_whenSome by reflexivity.
  rewrite !orb_false_r, orb_assoc. reflexivity.
Qed.

(** X16: the version of [ChatInterface.jsx] shows no [Stage2] view,
    whatever stage2 data and metadata a message carries, and its spinner
    does not depend on the stage-2 flag. *)
Theorem jsx_ignores_stage2 :
  forall (msg : Message) (children : list Node),
    ChatInterfaceJsx.renderMessage msg = AssistantMessage children ->
    (forall r l a, ~ In (Stage2 r l a) children)
    /\ showsPending children
       = loadingFlag loading_stage1 msg
         || loadingFlag loading_stage3 msg && negb (stage3Response msg).
Proof.
  intros msg children Hrender. split.
  - intros r l a. exact (jsx_renders_no_stage2 msg r l a children Hrender).
  - revert Hrender. unfold ChatInterfaceJsx.renderMessage.
    destruct (strictEq (role msg) (lit "user")); [discriminate |].
    intros E. injection E as <-.
    unfold ChatInterfaceJsx.renderStage1, ChatInterfaceJsx.renderStage3.
    rewrite !showsPending_app, !showsPending_when.
    rewrite !showsPending_whenSome by reflexivity.
    rewrite !orb_false_r. reflexivity.
Qed.



(** X19: while [isLoading] is true the chat screen of [part_000] shows the
    loading indicator and has the text area, the upload button and the send
    button all disabled; while it is false the indicator is absent, the
    text area and the upload button are enabled, and the send button is
    disabled exactly when the draft is white space only. *)
Theorem loading_disables_the_input_row :
  forall (c : Conversation) (w : World),
    exists busy idle : ChatScreen,
      Part000.render (Some c) true w = Chat busy
      /\ Part000.render (Some c) false w = Chat idle
      /\ loadingIndicator busy = true
      /\ textareaDisabled busy = true
      /\ uploadButtonDisabled busy = true
      /\ sendButtonDisabled busy = true
      /\ loadingIndicator idle = false
      /\ textareaDisabled idle = false
      /\ uploadButtonDisabled idle = false
      /\ (sendButtonDisabled idle = true <-> Forall blank (input w)).
Proof.
  intros c w. eexists. eexists.
  split; [reflexivity | split; [reflexivity |]].
  cbn [loadingIndicator textareaDisabled uploadButtonDisabled
       sendButtonDisabled].
  unfold Part000.sendDisabled. rewrite orb_true_r, orb_false_r.
  repeat (split; [reflexivity |]).
  rewrite negb_true_iff. apply trim_empty_iff.
Qed.

(** X20: the chat screen of [ChatInterface.jsx] has the input row, file
    list and status line that [part_000] shows when [isLoading] is false,
    and both show the welcome screen for the same props; they differ only
    in how they render the messages. *)
Theorem jsx_screen_is_idle_part000_screen :
  forall (conversation : option Conversation) (w : World),
    match ChatInterfaceJsx.render conversation w,
          Part000.render conversation false w with
    | Welcome, Welcome => conversation = None
    | Chat a, Chat b =>
        loadingIndicator a = loadingIndicator b
        /\ fileList a = fileList b
        /\ uploadButtonDisabled a = uploadButtonDisabled b
        /\ textareaValue a = textareaValue b
        /\ textareaDisabled a = textareaDisabled b
        /\ sendButtonDisabled a = sendButtonDisabled b
        /\ uploadStatusLine a = uploadStatusLine b
        /\ (messagesArea a = StartConversation
            <-> messagesArea b = StartConversation)
    | _, _ => False
    end.
Proof.
  intros [c|] w; [| reflexivity].
  cbn [ChatInterfaceJsx.render Part000.render loadingIndicator fileList
       uploadButtonDisabled textareaValue textareaDisabled
       sendButtonDisabled uploadStatusLine messagesArea].
  repeat (split; [reflexivity |]).
  split.
  - unfold ChatInterfaceJsx.sendDisabled, Part000.sendDisabled.
    rewrite orb_false_r. reflexivity.
  - split; [reflexivity |].
    destruct (messages c); simpl; split; solve [reflexivity | discriminate].
Qed.

End ScreenFacts.

Lemma assistant_spinner_witness :
  Part000.renderMessage rankedAnswer
  = AssistantMessage
      [MessageLabel (lit "LLM Council");
       Stage1 [(lit "model-a", lit "Paris")];
       Stage2 [(lit "model-a", lit "1. Response A")]
              (Some [(lit "Response A", lit "model-a")])
              (Some [lit "model-a"]);
       StageLoading (lit "Running Stage 3: Final synthesis...")]
  /\ showsPending
       [MessageLabel (lit "LLM Council");
        Stage1 [(lit "model-a", lit "Paris")];
        Stage2 [(lit "model-a", lit "1. Response A")]
               (Some [(lit "Response A", lit "model-a")])
               (Some [lit "model-a"]);
        StageLoading (lit "Running Stage 3: Final synthesis...")]
     = loadingFlag loading_stage1 rankedAnswer
       || loadingFlag loading_stage2 rankedAnswer
       || loadingFlag loading_stage3 rankedAnswer
          && negb (stage3Response rankedAnswer).
Proof.
  split; [reflexivity |].
  exact (@assistant_spinner_iff_flags textPayloads rankedAnswer _ eq_refl).
Defined.

Lemma jsx_ignores_stage2_witness :
  ChatInterfaceJsx.renderMessage rankedAnswer
  = AssistantMessage
      [Stage1 [(lit "model-a", lit "Paris")];
       StageLoading (lit "Synthesizing final answer...")]
  /\ forall r l a,
       ~ In (Stage2 r l a)
            [Stage1 [(lit "model-a", lit "Paris")];
             StageLoading (lit "Synthesizing final answer...")].
Proof.
  split; [reflexivity |].
  exact (proj1 (@jsx_ignores_stage2 textPayloads rankedAnswer _ eq_refl)).
Defined.
